(** * Container tools of the arista.cvp collection: a shallow embedding

    Source: [plugins/module_utils/container_tools.py].

    The Python code is dynamically typed, so values are embedded in one
    type [pyval]; operations that Python would abort with an exception
    return [Raise].  The two classes of the module are embedded in turn:
    [ContainerInput] (pure functions over the user topology) and
    [CvContainerTools] (calls against the CloudVision client, embedded
    with a state-and-exception monad that records every client call). *)

From Stdlib Require Import List String Ascii ZArith Bool Arith Lia Permutation.
Import ListNotations.
Set Warnings "-register-all".
Local Open Scope string_scope.
Local Open Scope list_scope.

(** ** Python values and exceptions *)

Inductive pyval : Type :=
| PyNone
| PyBool (b : bool)
| PyInt (z : Z)
| PyStr (s : string)
| PyList (l : list pyval)
| PyDict (d : list (string * pyval)).

Inductive exn : Type :=
| KeyError
| TypeError
| AttributeError
| UnboundLocalError
| CvpApiError
| CvpRequestError.

Inductive result (A : Type) : Type :=
| Ok (a : A)
| Raise (e : exn).
Arguments Ok {A} a.
Arguments Raise {A} e.

Definition rbind {A B} (r : result A) (k : A -> result B) : result B :=
  match r with
  | Ok a => k a
  | Raise e => Raise e
  end.

(** A Python dict with string keys, as the list of its items in iteration
    order.  Keys of a dict are unique; lookup takes the first item. *)
Definition dict := list (string * pyval).

Fixpoint dict_get (k : string) (d : dict) : option pyval :=
  match d with
  | [] => None
  | (k', v) :: d' => if String.eqb k' k then Some v else dict_get k d'
  end.

Definition dict_keys (d : dict) : list string := map fst d.

Definition dict_mem (k : string) (d : dict) : bool :=
  match dict_get k d with Some _ => true | None => false end.

(** [x in l] for a list of strings. *)
Definition str_mem (x : string) (l : list string) : bool :=
  existsb (String.eqb x) l.

(** [v == s] for a string [s]. *)
Definition py_eq_str (v : pyval) (s : string) : bool :=
  match v with
  | PyStr t => String.eqb t s
  | _ => false
  end.

(** [v == z] for an integer [z]; Python's booleans are the integers 0, 1. *)
Definition py_eq_int (v : pyval) (z : Z) : bool :=
  match v with
  | PyInt n => Z.eqb n z
  | PyBool b => Z.eqb (if b then 1 else 0) z
  | _ => false
  end.

Definition is_none (v : pyval) : bool :=
  match v with PyNone => true | _ => false end.

(** Truth value of a Python object. *)
Definition py_truthy (v : pyval) : bool :=
  match v with
  | PyNone => false
  | PyBool b => b
  | PyInt z => negb (Z.eqb z 0)
  | PyStr s => negb (String.eqb s "")
  | PyList l => match l with [] => false | _ => true end
  | PyDict d => match d with [] => false | _ => true end
  end.

Fixpoint is_substring (p s : string) : bool :=
  String.prefix p s ||
  match s with
  | EmptyString => false
  | String _ s' => is_substring p s'
  end.

(** [k in v]: key test on a dict, element test on a list, substring test
    on a string, [TypeError] on the other values. *)
Definition py_contains (k : string) (v : pyval) : result bool :=
  match v with
  | PyDict d => Ok (dict_mem k d)
  | PyList l => Ok (existsb (fun x => py_eq_str x k) l)
  | PyStr s => Ok (is_substring k s)
  | _ => Raise TypeError
  end.

(** [v[k]] for a string [k]. *)
Definition py_getitem (v : pyval) (k : string) : result pyval :=
  match v with
  | PyDict d =>
      match dict_get k d with
      | Some x => Ok x
      | None => Raise KeyError
      end
  | _ => Raise TypeError
  end.

(** [d.get(k)] on a dict (an [AttributeError] on values without [get]). *)
Definition py_get (v : pyval) (k : string) : result pyval :=
  match v with
  | PyDict d =>
      match dict_get k d with
      | Some x => Ok x
      | None => Ok PyNone
      end
  | _ => Raise AttributeError
  end.

(** ** Constants for fields in API data *)

Definition FIELD_COUNT_DEVICES := "childNetElementCount".
Definition FIELD_COUNT_CONTAINERS := "childContainerCount".
Definition FIELD_PARENT_ID := "parentContainerId".
Definition FIELD_NAME := "name".
Definition FIELD_KEY := "key".
Definition FIELD_TOPOLOGY := "topology".

(** ** Class [ContainerInput] *)

(** The object state: [_topology], [_parent_field] and [_root_name]. *)
Record ContainerInput : Type := mkContainerInput {
  _topology : dict;
  _root_name : string
}.

Definition _parent_field : string := "parent_container".

(** [self._topology[container]] *)
Definition topology_getitem (self : ContainerInput) (container : string)
  : result pyval :=
  py_getitem (PyDict (_topology self)) container.

Definition _get_container_data (self : ContainerInput)
    (container_name key_name : string) : result pyval :=
  if dict_mem container_name (_topology self) then
    rbind (topology_getitem self container_name) (fun spec =>
    rbind (py_contains key_name spec) (fun present =>
    if present then
      rbind (topology_getitem self container_name) (fun spec' =>
      py_getitem spec' key_name)
    else Ok PyNone))
  else Ok PyNone.

(** Body of the [for container in self._topology] loop of
    [ordered_list_containers], for one container. *)
Definition order_step (self : ContainerInput) (result_list : list string)
    (container : string) : result (list string) :=
  rbind (topology_getitem self container) (fun spec =>
  rbind (py_getitem spec _parent_field) (fun parent =>
  let result_list :=
    if py_eq_str parent (_root_name self)
    then result_list ++ [container]
    else result_list in
  if existsb (fun element => py_eq_str parent element) result_list
     && negb (str_mem container result_list)
  then Ok (result_list ++ [container])
  else Ok result_list)).

(** One full [for] loop over the keys. *)
Fixpoint order_pass (self : ContainerInput) (keys : list string)
    (result_list : list string) : result (list string) :=
  match keys with
  | [] => Ok result_list
  | container :: keys' =>
      rbind (order_step self result_list container)
            (order_pass self keys')
  end.

(** The [while] loop.  [None] means that the loop is still running after
    [fuel] passes. *)
Fixpoint order_while (fuel : nat) (self : ContainerInput)
    (result_list : list string) : option (result (list string)) :=
  if Nat.ltb (List.length result_list) (List.length (_topology self)) then
    match fuel with
    | 0 => None
    | S fuel' =>
        match order_pass self (dict_keys (_topology self)) result_list with
        | Ok result_list' => order_while fuel' self result_list'
        | Raise e => Some (Raise e)
        end
    end
  else Some (Ok result_list).

Definition ordered_list_containers (fuel : nat) (self : ContainerInput)
  : option (result (list string)) :=
  order_while fuel self [].

Definition get_parent (self : ContainerInput) (container_name : string)
    (parent_key : string) : result pyval :=
  _get_container_data self container_name parent_key.

Definition get_configlets (self : ContainerInput) (container_name : string)
    (configlet_key : string) : result pyval :=
  _get_container_data self container_name configlet_key.

Definition has_configlets (self : ContainerInput) (container_name : string)
    (configlet_key : string) : result bool :=
  rbind (_get_container_data self container_name configlet_key) (fun data =>
  if is_none data then Ok false else Ok true).

(** ** Class [CvContainerTools] *)

(** The methods of the CloudVision client ([self._cvp_client.api]) that the
    class calls, with their arguments. *)
Inductive api_call : Type :=
| api_get_container_by_name (name : string)
| api_filter_topology (node_id : pyval)
| api_get_configlet_by_name (name : string)
| api_add_container (container_name : string) (parent_key : pyval)
    (parent_name : string)
| api_delete_container (container_name : string) (container_key : pyval)
    (parent_key : pyval) (parent_name : string)
| api_apply_configlets_to_container (app_name : string)
    (new_configlets : list pyval) (container : pyval) (create_task : bool)
| api_remove_configlets_from_container (app_name : string)
    (del_configlets : list pyval) (container : pyval) (create_task : bool).

(** The calls that only read the remote state. *)
Definition is_lookup (c : api_call) : bool :=
  match c with
  | api_get_container_by_name _
  | api_filter_topology _
  | api_get_configlet_by_name _ => true
  | _ => false
  end.

(** Modelled from the spec: class [CvApiResult] of
    [module_utils/response.py], the spec's ChangeResult: a record of the
    target name, the success flag, the changed flag, the task identifiers
    returned by the remote system and a count of effected changes, built
    from the action name with every flag off, no task and a zero count;
    assigning one field leaves the others as they are. *)
Record CvApiResult : Type := mkCvApiResult {
  name : string;
  success : bool;
  changed : bool;
  taskIds : pyval;
  count : Z
}.

Definition new_CvApiResult (action_name : string) : CvApiResult :=
  {| name := action_name; success := false; changed := false;
     taskIds := PyList []; count := 0 |}.

Definition set_name (s : string) (r : CvApiResult) : CvApiResult :=
  {| name := s; success := success r; changed := changed r;
     taskIds := taskIds r; count := count r |}.
Definition set_success (b : bool) (r : CvApiResult) : CvApiResult :=
  {| name := name r; success := b; changed := changed r;
     taskIds := taskIds r; count := count r |}.
Definition set_changed (b : bool) (r : CvApiResult) : CvApiResult :=
  {| name := name r; success := success r; changed := b;
     taskIds := taskIds r; count := count r |}.
Definition set_taskIds (t : pyval) (r : CvApiResult) : CvApiResult :=
  {| name := name r; success := success r; changed := changed r;
     taskIds := t; count := count r |}.
Definition set_count (z : Z) (r : CvApiResult) : CvApiResult :=
  {| name := name r; success := success r; changed := changed r;
     taskIds := taskIds r; count := z |}.

(** The state a method runs in: the state of the remote registry and the
    calls the client has received so far, oldest first. *)
Record world (R : Type) : Type := mkWorld {
  remote : R;
  calls : list api_call
}.
Arguments mkWorld {R} remote calls.
Arguments remote {R} w.
Arguments calls {R} w.

(** Computations that call the client and may raise. *)
Definition M (R A : Type) : Type := world R -> result A * world R.

Definition ret {R A} (a : A) : M R A := fun w => (Ok a, w).

Definition raise {R A} (e : exn) : M R A := fun w => (Raise e, w).

Definition bind {R A B} (m : M R A) (k : A -> M R B) : M R B :=
  fun w =>
    match m w with
    | (Ok a, w') => k a w'
    | (Raise e, w') => (Raise e, w')
    end.

Definition lift {R A} (r : result A) : M R A := fun w => (r, w).

(** [try: x = body / except CvpApiError: handler / else: orelse x] *)
Definition try_except_CvpApiError {R A B} (body : M R A) (handler : M R B)
    (orelse : A -> M R B) : M R B :=
  fun w =>
    match body w with
    | (Ok a, w') => orelse a w'
    | (Raise CvpApiError, w') => handler w'
    | (Raise e, w') => (Raise e, w')
    end.

Declare Scope py_scope.
Delimit Scope py_scope with py.
Notation "x <- m ;; k" := (bind m (fun x => k))
  (at level 61, m at next level, right associativity) : py_scope.
Notation "x <~ r ;; k" := (bind (lift r) (fun x => k))
  (at level 61, r at next level, right associativity) : py_scope.

(** [[entry.get('name') for entry in configlets if entry.get('name')]] *)
Fixpoint configlet_names_of (configlets : list pyval)
  : result (list pyval) :=
  match configlets with
  | [] => Ok []
  | entry :: rest =>
      rbind (py_get entry FIELD_NAME) (fun n =>
      if py_truthy n then
        rbind (py_get entry FIELD_NAME) (fun n' =>
        rbind (configlet_names_of rest) (fun l => Ok (n' :: l)))
      else configlet_names_of rest)
  end.

(** [sep.join(l)]: every item has to be a string. *)
Fixpoint py_join (sep : string) (l : list pyval) : result string :=
  match l with
  | [] => Ok ""
  | PyStr s :: rest =>
      match rest with
      | [] => Ok s
      | _ => rbind (py_join sep rest) (fun t => Ok (s ++ sep ++ t)%string)
      end
  | _ => Raise TypeError
  end.

(** [v + s] for a string [s]. *)
Definition py_add_str (v : pyval) (s : string) : result string :=
  match v with
  | PyStr t => Ok (t ++ s)%string
  | _ => Raise TypeError
  end.

(** [container['name'] + ':' + ':'.join(configlet_names)] *)
Definition action_name_of (container : pyval) (configlet_names : list pyval)
  : result string :=
  rbind (py_getitem container FIELD_NAME) (fun n =>
  rbind (py_add_str n ":") (fun s =>
  rbind (py_join ":" configlet_names) (fun j => Ok (s ++ j)%string))).

Definition standard_keys : list string :=
  [FIELD_KEY; FIELD_NAME; FIELD_COUNT_CONTAINERS; FIELD_COUNT_DEVICES;
   FIELD_PARENT_ID].

Definition _standard_output (source : pyval) : result pyval :=
  match source with
  | PyDict d => Ok (PyDict (filter (fun kv => str_mem (fst kv) standard_keys) d))
  | _ => Raise AttributeError
  end.

Section CvContainerTools.

Local Open Scope py_scope.

(** The object state: [_cvp_client], given by the state of the remote
    registry and the answer of the client to each call, and [_ansible],
    of which the class reads [check_mode] only. *)
Variable R : Type.
Variable client : api_call -> R -> result pyval * R.
Variable check_mode : bool.

(** [self._cvp_client.api.<method>(...)] *)
Definition api (c : api_call) : M R pyval :=
  fun w =>
    let (r, s) := client c (remote w) in
    (r, mkWorld s (calls w ++ [c])).

Definition _get_configlet_info (configlet_name : string) : M R pyval :=
  data <- api (api_get_configlet_by_name configlet_name) ;;
  if negb (is_none data) then lift (_standard_output data)
  else ret PyNone.

(** The [else] branch shared by the two configlet calls:
    [if 'data' in resp and resp['data']['status'] == 'success'] *)
Definition configlet_response (resp : pyval) (change_response : CvApiResult)
  : result CvApiResult :=
  rbind (py_contains "data" resp) (fun has_data =>
  if has_data then
    rbind (py_getitem resp "data") (fun data =>
    rbind (py_getitem data "status") (fun status =>
    if py_eq_str status "success" then
      rbind (py_getitem resp "data") (fun data' =>
      rbind (py_getitem data' "taskIds") (fun t =>
      Ok (set_success true (set_taskIds t change_response))))
    else Ok change_response))
  else Ok change_response).

Definition _configlet_add (container : pyval) (configlets : list pyval)
    (save_topology : bool) : M R CvApiResult :=
  let container_name := "Undefined" in
  let change_response := new_CvApiResult container_name in
  if negb (is_none container) then
    configlet_names <~ configlet_names_of configlets ;;
    action <~ action_name_of container configlet_names ;;
    let change_response := set_name action change_response in
    if check_mode then
      ret (set_taskIds (PyList [PyStr "check_mode"])
             (set_success true change_response))
    else
      try_except_CvpApiError
        (api (api_apply_configlets_to_container "ansible_cv_container"
                configlets container save_topology))
        (ret change_response)
        (fun resp => lift (configlet_response resp change_response))
  else ret change_response.

Definition _configlet_del (container : pyval) (configlets : list pyval)
    (save_topology : bool) : M R CvApiResult :=
  configlet_names <~ configlet_names_of configlets ;;
  action <~ action_name_of container configlet_names ;;
  let change_response := new_CvApiResult action in
  if check_mode then
    ret (set_taskIds (PyList [PyStr "check_mode"])
           (set_success true change_response))
  else
    try_except_CvpApiError
      (api (api_remove_configlets_from_container "ansible_cv_container"
              configlets container save_topology))
      (ret change_response)
      (fun resp => lift (configlet_response resp change_response)).

Definition get_container_info (container_name : string) : M R pyval :=
  cv_response <- api (api_get_container_by_name container_name) ;;
  found <~ (if negb (is_none cv_response)
            then py_contains FIELD_KEY cv_response else Ok false) ;;
  if found then
    again <- api (api_get_container_by_name container_name) ;;
    container_id <~ py_getitem again FIELD_KEY ;;
    topology <- api (api_filter_topology container_id) ;;
    container_facts <~ py_getitem topology FIELD_TOPOLOGY ;;
    lift (_standard_output container_facts)
  else ret PyNone.

Definition get_container_id (container_name : string) : M R pyval :=
  container_info <- api (api_get_container_by_name container_name) ;;
  found <~ py_contains FIELD_KEY container_info ;;
  if found then lift (py_getitem container_info FIELD_KEY)
  else ret PyNone.

Definition is_empty (container_name : string) : M R bool :=
  container <- get_container_info container_name ;;
  has_containers <~ py_contains FIELD_COUNT_CONTAINERS container ;;
  has_both <~ (if has_containers
               then py_contains FIELD_COUNT_DEVICES container
               else Ok false) ;;
  if has_both then
    n_containers <~ py_getitem container FIELD_COUNT_CONTAINERS ;;
    if py_eq_int n_containers 0 then
      n_devices <~ py_getitem container FIELD_COUNT_DEVICES ;;
      if py_eq_int n_devices 0 then ret true else ret false
    else ret false
  else ret false.

(** The [except] clause only logs: after it, [cv_data] is not bound and
    the test that follows raises [UnboundLocalError]. *)
Definition is_container_exists (container_name : string) : M R bool :=
  try_except_CvpApiError
    (api (api_get_container_by_name container_name))
    (raise UnboundLocalError)
    (fun cv_data => if negb (is_none cv_data) then ret true else ret false).

(** The [else] branch of the container calls:
    [if resp['data']['status'] == "success"] *)
Definition container_response (resp : pyval) : result (option pyval) :=
  rbind (py_getitem resp "data") (fun data =>
  rbind (py_getitem data "status") (fun status =>
  if py_eq_str status "success" then
    rbind (py_getitem resp "data") (fun data' =>
    rbind (py_getitem data' "taskIds") (fun t => Ok (Some t)))
  else Ok None)).

Definition create_container (container parent : string) : M R CvApiResult :=
  let change_result := new_CvApiResult container in
  parent_exists <- is_container_exists parent ;;
  if parent_exists then
    parent_info <- api (api_get_container_by_name parent) ;;
    parent_id <~ py_getitem parent_info FIELD_KEY ;;
    container_exists <- is_container_exists container ;;
    if negb container_exists then
      if check_mode then
        ret (set_changed true (set_success true change_result))
      else
        try_except_CvpApiError
          (api (api_add_container container parent_id parent))
          (ret change_result)
          (fun resp =>
             status <~ container_response resp ;;
             match status with
             | Some t =>
                 let change_result := set_taskIds t change_result in
                 let change_result := set_success true change_result in
                 ret (set_count (count change_result + 1) change_result)
             | None => ret change_result
             end)
    else ret change_result
  else ret change_result.

Definition delete_container (container parent : string) : M R CvApiResult :=
  let change_result := new_CvApiResult container in
  container_exists <- is_container_exists container ;;
  deletable <- (if container_exists then is_empty container
                else ret false) ;;
  if deletable then
    parent_id <- get_container_id parent ;;
    container_id <- get_container_id container ;;
    if check_mode then ret (set_success true change_result)
    else
      try_except_CvpApiError
        (api (api_delete_container container container_id parent_id parent))
        (ret change_result)
        (fun resp =>
           status <~ container_response resp ;;
           match status with
           | Some t =>
               ret (set_success true (set_taskIds t change_result))
           | None => ret change_result
           end)
  else ret change_result.

(** The loop of [configlets_attach] and of [configlets_detach]:
    [[
    for configlet in configlets:
        data = self._get_configlet_info(configlet_name=configlet)
        if data is not None:
            attach_configlets.append(data)
    ]] *)
Fixpoint collect_configlets (configlets : list string)
    (attach_configlets : list pyval) : M R (list pyval) :=
  match configlets with
  | [] => ret attach_configlets
  | configlet :: rest =>
      data <- _get_configlet_info configlet ;;
      if negb (is_none data)
      then collect_configlets rest (attach_configlets ++ [data])
      else collect_configlets rest attach_configlets
  end.

Definition configlets_attach (container : string) (configlets : list string)
    (strict : bool) : M R CvApiResult :=
  container_info <- get_container_info container ;;
  attach_configlets <- collect_configlets configlets [] ;;
  _configlet_add container_info attach_configlets true.

Definition configlets_detach (container : string) (configlets : list string)
    (strict : bool) : M R CvApiResult :=
  container_info <- get_container_info container ;;
  detach_configlets <- collect_configlets configlets [] ;;
  _configlet_del container_info detach_configlets true.

End CvContainerTools.

Arguments api {R} client c w.
Arguments _get_configlet_info {R} client configlet_name w.
Arguments _configlet_add {R} client check_mode container configlets
  save_topology w.
Arguments _configlet_del {R} client check_mode container configlets
  save_topology w.
Arguments get_container_info {R} client container_name w.
Arguments get_container_id {R} client container_name w.
Arguments is_empty {R} client container_name w.
Arguments is_container_exists {R} client container_name w.
Arguments create_container {R} client check_mode container parent w.
Arguments delete_container {R} client check_mode container parent w.
Arguments collect_configlets {R} client configlets attach_configlets w.
Arguments configlets_attach {R} client check_mode container configlets
  strict w.
Arguments configlets_detach {R} client check_mode container configlets
  strict w.

(** ** The configlet listings of [CvContainerTools]

    [_get_attached_configlets] and [_get_all_configlets] start with one
    call of the client and go on without it: they are given here by what
    they do with the outcome of that call. *)

(** [c.lower()] on the letters A to Z; the other characters are left as
    they are. *)
Definition lower_ascii (c : ascii) : ascii :=
  let n := nat_of_ascii c in
  if Nat.leb 65 n && Nat.leb n 90 then ascii_of_nat (n + 32) else c.

Fixpoint py_lower (s : string) : string :=
  match s with
  | EmptyString => EmptyString
  | String c s' => String (lower_ascii c) (py_lower s')
  end.

(** [d[k] = v]: the value of a key that is there is replaced where it is,
    a new key goes last. *)
Fixpoint dict_set (k : string) (v : pyval) (d : dict) : dict :=
  match d with
  | [] => [(k, v)]
  | (k', v') :: d' =>
      if String.eqb k' k then (k', v) :: d' else (k', v') :: dict_set k v d'
  end.

(** [{k.lower(): v for k, v in info.items()}] *)
Definition lower_keys (info : pyval) : result dict :=
  match info with
  | PyDict d =>
      Ok (fold_left (fun acc kv => dict_set (py_lower (fst kv)) (snd kv) acc)
            d [])
  | _ => Raise AttributeError
  end.

(** The items a [for] loop goes through: the items of a list, the keys of
    a dict, the characters of a string. *)
Definition py_iter (v : pyval) : result (list pyval) :=
  match v with
  | PyList l => Ok l
  | PyDict d => Ok (map (fun kv => PyStr (fst kv)) d)
  | PyStr s =>
      Ok (map (fun c => PyStr (String c EmptyString))
            (list_ascii_of_string s))
  | _ => Raise TypeError
  end.

(** [[
    for configlet in items:
        result.append(self._standard_output(source=configlet))
    ]] *)
Fixpoint standard_outputs (items result_list : list pyval)
  : result (list pyval) :=
  match items with
  | [] => Ok result_list
  | configlet :: rest =>
      rbind (_standard_output configlet) (fun out =>
      standard_outputs rest (result_list ++ [out]))
  end.

(** [answer] is the outcome of
    [self._cvp_client.api.get_configlets_by_container_id(c_id=container_name)]. *)
Definition _get_attached_configlets (answer : result pyval)
  : result (list pyval) :=
  rbind answer (fun info =>
  rbind (lower_keys info) (fun info =>
  rbind (py_getitem (PyDict info) "configletList") (fun attached =>
  rbind (py_iter attached) (fun items =>
  standard_outputs items [])))).

(** [answer] is the outcome of [self._cvp_client.api.get_configlets()]. *)
Definition _get_all_configlets (answer : result pyval)
  : result (list pyval) :=
  rbind answer (fun list_configlets =>
  rbind (lower_keys list_configlets) (fun list_configlets =>
  rbind (py_getitem (PyDict list_configlets) "data") (fun data =>
  rbind (py_iter data) (fun items =>
  standard_outputs items [])))).

(** The items of a dict with their keys in lower case. *)
Definition lowered (d : dict) : dict :=
  map (fun kv => (py_lower (fst kv), snd kv)) d.

(** The standard output of a dict. *)
Definition standard_fields (v : pyval) : pyval :=
  match v with
  | PyDict d => PyDict (filter (fun kv => str_mem (fst kv) standard_keys) d)
  | _ => v
  end.

(** ** Predicates of the specification *)

(** The parent a container declares, when it is a string. *)
Definition declared_parent (self : ContainerInput) (container : string)
  : option string :=
  match dict_get container (_topology self) with
  | Some spec =>
      match py_getitem spec _parent_field with
      | Ok (PyStr p) => Some p
      | _ => None
      end
  | None => None
  end.

(** Following the declared parents from [container] reaches the root
    sentinel through keys of the topology, in at most [fuel] more steps. *)
Fixpoint reaches_root (fuel : nat) (self : ContainerInput)
    (container : string) : bool :=
  match declared_parent self container with
  | Some p =>
      if String.eqb p (_root_name self) then true
      else
        match fuel with
        | 0 => false
        | S fuel' =>
            dict_mem p (_topology self) && reaches_root fuel' self p
        end
  | None => false
  end.

Fixpoint distinct (l : list string) : bool :=
  match l with
  | [] => true
  | x :: l' => negb (str_mem x l') && distinct l'
  end.

(** The invariant of a Topology: the keys are distinct, every parent is
    the sentinel or another key, and there is no cycle. *)
Definition well_formed (self : ContainerInput) : bool :=
  distinct (dict_keys (_topology self)) &&
  forallb (reaches_root (List.length (_topology self)) self)
          (dict_keys (_topology self)).

(** [p] comes strictly before [c] in [l]. *)
Definition precedes (p c : string) (l : list string) : Prop :=
  exists l1 l2, l = l1 ++ p :: l2 /\ ~ In c l1 /\ ~ In c [p] /\ In c l2.

(** An OrderedContainerList for the topology. *)
Definition valid_order (self : ContainerInput) (l : list string) : Prop :=
  Permutation l (dict_keys (_topology self)) /\
  forall c p, In c (dict_keys (_topology self)) ->
    declared_parent self c = Some p -> p <> _root_name self ->
    precedes p c l.

(** The keys are listed parents first: the declared parent of each key is
    the sentinel or an earlier key. *)
Fixpoint parents_first (self : ContainerInput) (seen keys : list string)
  : bool :=
  match keys with
  | [] => true
  | c :: keys' =>
      match declared_parent self c with
      | Some p =>
          (String.eqb p (_root_name self) || str_mem p seen)
          && parents_first self (seen ++ [c]) keys'
      | None => false
      end
  end.

(** The calls [w'] records on top of those of [w] are all lookups. *)
Definition only_lookups {R} (w w' : world R) : Prop :=
  exists l, calls w' = calls w ++ l /\ forallb is_lookup l = true.

(** What the ordering loop keeps true of [result_list] when the parent of
    [c] is no key: the list holds keys only, and not [c]. *)
Definition keys_without_c (self : ContainerInput) (c : string)
    (l : list string) : Prop :=
  (forall x, In x l -> In x (dict_keys (_topology self))) /\ ~ In c l.

(** [m] adds nothing but lookups to the recorded calls, and a value it
    returns satisfies [post]. *)
Definition reads_only {R A} (m : M R A) (post : A -> Prop) : Prop :=
  forall w,
    only_lookups w (snd (m w)) /\ forall a, fst (m w) = Ok a -> post a.

(** The batch that the loop of [configlets_attach] builds when the
    registry answers [resolve n] to the lookup of the configlet [n]. *)
Definition resolved_batch (resolve : string -> pyval) (names : list string)
  : list pyval :=
  flat_map (fun n =>
              match resolve n with
              | PyDict d =>
                  [PyDict (filter (fun kv => str_mem (fst kv) standard_keys) d)]
              | _ => []
              end) names.

(** ** A registry for the examples

    A client over an in-memory registry: containers and configlets by
    name.  Creation and deletion update the registry and answer with a
    success status. *)

Record registry : Type := mkRegistry {
  containers : dict;
  configlets : dict
}.

Definition container_record (key cname : string) (parent_key : pyval)
    (n_containers n_devices : Z) : pyval :=
  PyDict [(FIELD_KEY, PyStr key); (FIELD_NAME, PyStr cname);
          (FIELD_COUNT_CONTAINERS, PyInt n_containers);
          (FIELD_COUNT_DEVICES, PyInt n_devices);
          (FIELD_PARENT_ID, parent_key);
          ("type", PyStr "container")].

Definition configlet_record (key cname : string) : pyval :=
  PyDict [(FIELD_KEY, PyStr key); (FIELD_NAME, PyStr cname);
          ("config", PyStr "alias v show version")].

Definition success_response (tasks : pyval) : pyval :=
  PyDict [("data", PyDict [("status", PyStr "success"); ("taskIds", tasks)])].

Fixpoint find_by_key (node_id : pyval) (cs : dict) : option pyval :=
  match cs with
  | [] => None
  | (_, record) :: cs' =>
      match py_getitem record FIELD_KEY with
      | Ok (PyStr k) =>
          if py_eq_str node_id k then Some record
          else find_by_key node_id cs'
      | _ => find_by_key node_id cs'
      end
  end.

Definition registry_client (c : api_call) (r : registry)
  : result pyval * registry :=
  match c with
  | api_get_container_by_name n =>
      (Ok (match dict_get n (containers r) with
           | Some v => v
           | None => PyNone
           end), r)
  | api_filter_topology node_id =>
      match find_by_key node_id (containers r) with
      | Some record => (Ok (PyDict [(FIELD_TOPOLOGY, record)]), r)
      | None => (Raise CvpApiError, r)
      end
  | api_get_configlet_by_name n =>
      (Ok (match dict_get n (configlets r) with
           | Some v => v
           | None => PyNone
           end), r)
  | api_add_container n parent_key _ =>
      (Ok (success_response (PyList [])),
       mkRegistry
         (containers r ++
          [(n, container_record ("container_" ++ n) n parent_key 0 0)])
         (configlets r))
  | api_delete_container n _ _ _ =>
      (Ok (success_response (PyList [])),
       mkRegistry
         (filter (fun kv => negb (String.eqb (fst kv) n)) (containers r))
         (configlets r))
  | api_apply_configlets_to_container _ _ _ _
  | api_remove_configlets_from_container _ _ _ _ =>
      (Ok (success_response (PyList [PyStr "12"])), r)
  end.

(** A client whose every call raises the registry error. *)
Definition failing_client (c : api_call) (r : registry)
  : result pyval * registry :=
  (Raise CvpApiError, r).

(** Tenant, with an empty container DC1 and a container DC2 that holds
    one device; one configlet. *)
Definition demo_registry : registry :=
  mkRegistry
    [("Tenant", container_record "root" "Tenant" PyNone 2 0);
     ("DC1", container_record "container_1" "DC1" (PyStr "root") 0 0);
     ("DC2", container_record "container_2" "DC2" (PyStr "root") 0 1)]
    [("ALIASES", configlet_record "configlet_1" "ALIASES")].

Definition demo_world : world registry := mkWorld demo_registry [].

Definition spec_of (parent : string) : pyval :=
  PyDict [(_parent_field, PyStr parent)].

(** The example of the specification. *)
Definition demo_topology : ContainerInput :=
  mkContainerInput
    [("A", spec_of "Tenant"); ("B", spec_of "A"); ("C", spec_of "A");
     ("D", spec_of "B")] "Tenant".

(** A child declared before its parent. *)
Definition child_first_topology : ContainerInput :=
  mkContainerInput [("B", spec_of "A"); ("A", spec_of "Tenant")] "Tenant".

(** [B] names a parent that is no container of the topology. *)
Definition dangling_topology : ContainerInput :=
  mkContainerInput [("A", spec_of "Tenant"); ("B", spec_of "X")] "Tenant".

Definition configlets_topology : ContainerInput :=
  mkContainerInput
    [("A", PyDict [(_parent_field, PyStr "Tenant"); ("configlets", PyList [])]);
     ("B", PyDict [(_parent_field, PyStr "A");
                   ("configlets", PyList [PyStr "ALIASES"])]);
     ("C", spec_of "A")] "Tenant".

(** A single container, whose parent is no container of the topology. *)
Definition orphan_topology : ContainerInput :=
  mkContainerInput [("B", spec_of "X")] "Tenant".

(** [c] may be placed after [seen]: its parent is the root sentinel or one
    of [seen]. *)
Definition eligible (self : ContainerInput) (seen : list string)
    (c : string) : bool :=
  match topology_getitem self c with
  | Ok spec =>
      match py_getitem spec _parent_field with
      | Ok parent =>
          py_eq_str parent (_root_name self)
          || existsb (fun element => py_eq_str parent element) seen
      | Raise _ => false
      end
  | Raise _ => false
  end.

(** Every entry of [l] may be placed after [seen] and the entries before
    it. *)
Fixpoint parents_placed (self : ContainerInput) (seen l : list string)
  : bool :=
  match l with
  | [] => true
  | c :: l' => eligible self seen c && parents_placed self (seen ++ [c]) l'
  end.

(** [B] has configlets and no parent. *)
Definition configlets_free_topology : ContainerInput :=
  mkContainerInput
    [("A", spec_of "Tenant"); ("B", PyDict [("configlets", PyList [])])]
    "Tenant".

(** [B] is declared with no body. *)
Definition empty_body_topology : ContainerInput :=
  mkContainerInput [("A", spec_of "Tenant"); ("B", PyNone)] "Tenant".

(** The facts of a container count no container and no device. *)
Definition counts_empty (facts : dict) : bool :=
  match dict_get FIELD_COUNT_CONTAINERS facts with
  | Some n_containers =>
      match dict_get FIELD_COUNT_DEVICES facts with
      | Some n_devices =>
          py_eq_int n_containers 0 && py_eq_int n_devices 0
      | None => false
      end
  | None => false
  end.

(** The items of a dict value. *)
Definition record_fields (v : pyval) : dict :=
  match v with
  | PyDict d => d
  | _ => []
  end.

(** The lookups of the existence test and of the emptiness test of
    [delete_container]. *)
Definition deletion_tests (container : string) (container_id : pyval)
  : list api_call :=
  [api_get_container_by_name container;
   api_get_container_by_name container;
   api_get_container_by_name container;
   api_filter_topology container_id].

(** A client that answers the lookups as [registry_client] does and
    raises the registry error on every other call. *)
Definition readonly_client (c : api_call) (r : registry)
  : result pyval * registry :=
  if is_lookup c then registry_client c r else (Raise CvpApiError, r).

(** What [get_container_info] returns for [DC1] in [demo_registry], and
    the state it leaves. *)
Definition dc1_info : dict :=
  [(FIELD_KEY, PyStr "container_1"); (FIELD_NAME, PyStr "DC1");
   (FIELD_COUNT_CONTAINERS, PyInt 0); (FIELD_COUNT_DEVICES, PyInt 0);
   (FIELD_PARENT_ID, PyStr "root")].

Definition dc1_found : world registry :=
  mkWorld demo_registry
    [api_get_container_by_name "DC1"; api_get_container_by_name "DC1";
     api_filter_topology (PyStr "container_1")].

(** The answers of [demo_registry] to the lookups of configlets. *)
Definition demo_resolve (n : string) : pyval :=
  match dict_get n (configlets demo_registry) with
  | Some v => v
  | None => PyNone
  end.

(** * Properties *)

(** ** Lists and dicts *)

Lemma append_empty_r (s : string) : (s ++ "")%string = s.
Proof. induction s as [|a s IH]; simpl; congruence. Qed.

Lemma str_mem_In (x : string) (l : list string) :
  str_mem x l = true <-> In x l.
Proof.
  unfold str_mem. rewrite existsb_exists. split.
  - intros [y [Hy He]]. apply String.eqb_eq in He. now subst.
  - intros H. exists x. split; [assumption | apply String.eqb_refl].
Qed.

Lemma str_mem_false (x : string) (l : list string) :
  str_mem x l = false <-> ~ In x l.
Proof.
  rewrite <- str_mem_In. destruct (str_mem x l); split; congruence.
Qed.

Lemma dict_get_key (k : string) (d : dict) :
  In k (dict_keys d) -> exists v, dict_get k d = Some v.
Proof.
  induction d as [|[k' v] d IH]; simpl; [tauto|].
  intros [->|H].
  - rewrite String.eqb_refl. eauto.
  - destruct (String.eqb k' k); eauto.
Qed.

Lemma dict_get_some_key (k : string) (d : dict) (v : pyval) :
  dict_get k d = Some v -> In k (dict_keys d).
Proof.
  induction d as [|[k' v'] d IH]; simpl; [discriminate|].
  destruct (String.eqb k' k) eqn:E.
  - apply String.eqb_eq in E. auto.
  - auto.
Qed.

Lemma dict_mem_false (k : string) (d : dict) :
  ~ In k (dict_keys d) -> dict_mem k d = false.
Proof.
  intros H. unfold dict_mem. destruct (dict_get k d) eqn:E; [|reflexivity].
  apply dict_get_some_key in E. contradiction.
Qed.

(** ** [ContainerInput] *)

Lemma order_while_unfold (self : ContainerInput) (fuel : nat)
    (result_list : list string) :
  order_while fuel self result_list =
  if Nat.ltb (List.length result_list) (List.length (_topology self)) then
    match fuel with
    | 0 => None
    | S fuel' =>
        match order_pass self (dict_keys (_topology self)) result_list with
        | Ok result_list' => order_while fuel' self result_list'
        | Raise e => Some (Raise e)
        end
    end
  else Some (Ok result_list).
Proof. destruct fuel; reflexivity. Qed.

(** More fuel does not change the answer of a loop that has ended. *)
Lemma order_while_more_fuel (self : ContainerInput) (fuel : nat) :
  forall (result_list : list string) (r : result (list string)),
    order_while fuel self result_list = Some r ->
    forall extra, order_while (fuel + extra) self result_list = Some r.
Proof.
  induction fuel as [|fuel IH]; intros l r H extra.
  - simpl in H.
    destruct (Nat.ltb (List.length l) (List.length (_topology self))) eqn:E;
      [discriminate|].
    destruct (0 + extra); simpl; now rewrite E.
  - simpl in *.
    destruct (Nat.ltb (List.length l) (List.length (_topology self)));
      [|assumption].
    destruct (order_pass self (dict_keys (_topology self)) l);
      [now apply IH | assumption].
Qed.

(** C8: the ordering of the empty topology is the empty sequence, and no
    pass of the loop is needed for it. *)
Theorem ordered_list_containers_empty (root : string) (fuel : nat) :
  ordered_list_containers fuel (mkContainerInput [] root) = Some (Ok []).
Proof.
  unfold ordered_list_containers. destruct fuel; reflexivity.
Qed.

(** C9: [has_configlets] answers true exactly when [get_configlets] gives a
    value that is not [None]; an empty list of configlets counts as
    present; for a name that is no key of the topology the two answer
    [False] and [None]. *)
Theorem has_configlets_iff_get_configlets
    (self : ContainerInput) (container_name configlet_key : string) :
  (has_configlets self container_name configlet_key = Ok true <->
   exists v, get_configlets self container_name configlet_key = Ok v
             /\ v <> PyNone)
  /\ (has_configlets self container_name configlet_key = Ok false <->
      get_configlets self container_name configlet_key = Ok PyNone)
  /\ (get_configlets self container_name configlet_key = Ok (PyList []) ->
      has_configlets self container_name configlet_key = Ok true)
  /\ (~ In container_name (dict_keys (_topology self)) ->
      has_configlets self container_name configlet_key = Ok false
      /\ get_configlets self container_name configlet_key = Ok PyNone).
Proof.
  unfold has_configlets, get_configlets.
  repeat split.
  - destruct (_get_container_data self container_name configlet_key)
      as [v|e]; simpl; [|discriminate].
    destruct v; simpl; intros H; try discriminate;
      eexists; (split; [reflexivity | discriminate]).
  - intros [v [-> Hv]]. simpl. destruct v; simpl; congruence.
  - destruct (_get_container_data self container_name configlet_key)
      as [v|e]; simpl; [|discriminate].
    destruct v; simpl; congruence.
  - intros ->. reflexivity.
  - intros ->. reflexivity.
  - unfold _get_container_data. now rewrite (dict_mem_false _ _ H).
  - unfold _get_container_data. now rewrite (dict_mem_false _ _ H).
Qed.

Lemma has_configlets_iff_get_configlets_witness :
  has_configlets configlets_topology "D" "configlets" = Ok false
  /\ get_configlets configlets_topology "D" "configlets" = Ok PyNone.
Proof.
  apply (has_configlets_iff_get_configlets configlets_topology "D"
           "configlets").
  simpl. intros H.
  repeat (destruct H as [H|H]; [discriminate H|]). exact H.
Defined.

(** The keys of the specification's example come out in a valid order. *)
Example ordered_list_containers_demo :
  ordered_list_containers 1 demo_topology = Some (Ok ["A"; "B"; "C"; "D"]).
Proof. reflexivity. Qed.

(** C1: on a well-formed topology that declares a child before its
    parent, the loop runs a second pass, in which the container under the
    root is appended once more: the list returned repeats a key and is no
    permutation of the keys. *)
Theorem ordered_list_containers_child_first :
  well_formed child_first_topology = true
  /\ (forall extra,
        ordered_list_containers (2 + extra) child_first_topology
        = Some (Ok ["A"; "B"; "A"]))
  /\ ~ Permutation ["A"; "B"; "A"] (dict_keys (_topology child_first_topology))
  /\ ~ valid_order child_first_topology ["A"; "B"; "A"].
Proof.
  assert (Hperm : ~ Permutation ["A"; "B"; "A"]
                    (dict_keys (_topology child_first_topology))).
  { intros H. apply Permutation_length in H. discriminate H. }
  repeat split.
  - intros extra. apply order_while_more_fuel. reflexivity.
  - exact Hperm.
  - intros [H _]. now apply Hperm.
Qed.

(** *** Topologies with a dangling parent *)

Section Dangling.

Variable self : ContainerInput.
Variable c : string.
Variable spec p : pyval.

Hypothesis c_spec : dict_get c (_topology self) = Some spec.
Hypothesis c_parent : py_getitem spec _parent_field = Ok p.
Hypothesis not_root : py_eq_str p (_root_name self) = false.
Hypothesis not_key :
  forall k, In k (dict_keys (_topology self)) -> py_eq_str p k = false.

Lemma parent_not_placed (l : list string) :
  keys_without_c self c l ->
  existsb (fun element => py_eq_str p element) l = false.
Proof.
  intros [Hk _]. induction l as [|x l IH]; [reflexivity|].
  simpl. rewrite not_key by (apply Hk; now left). simpl.
  apply IH. intros y Hy. apply Hk. now right.
Qed.

Lemma keys_without_c_app (l : list string) (k : string) :
  keys_without_c self c l -> In k (dict_keys (_topology self)) -> k <> c ->
  keys_without_c self c (l ++ [k]).
Proof.
  intros [Hk Hc] Hin Hne. split.
  - intros x Hx. apply in_app_or in Hx. destruct Hx as [Hx|[<-|[]]]; auto.
  - intros Hx. apply in_app_or in Hx. destruct Hx as [Hx|[Hx|[]]]; auto.
Qed.

Lemma order_step_dangling (l l' : list string) (k : string) :
  In k (dict_keys (_topology self)) ->
  keys_without_c self c l -> order_step self l k = Ok l' ->
  keys_without_c self c l'.
Proof.
  intros Hin Hinv. unfold order_step, topology_getitem. simpl.
  destruct (String.eqb k c) eqn:Ekc.
  - apply String.eqb_eq in Ekc. subst k.
    rewrite c_spec. simpl. rewrite c_parent. simpl. rewrite not_root.
    rewrite (parent_not_placed l Hinv). simpl. congruence.
  - apply String.eqb_neq in Ekc.
    destruct (dict_get k (_topology self)) as [s|]; simpl; [|discriminate].
    destruct (py_getitem s _parent_field) as [q|]; simpl; [|discriminate].
    destruct (py_eq_str q (_root_name self));
      match goal with
      | |- (if ?b then _ else _) = _ -> _ => destruct b
      end; intros H; injection H as <-;
      auto using keys_without_c_app.
Qed.

Lemma order_pass_dangling (keys : list string) :
  forall l l',
    (forall k, In k keys -> In k (dict_keys (_topology self))) ->
    keys_without_c self c l -> order_pass self keys l = Ok l' ->
    keys_without_c self c l'.
Proof.
  induction keys as [|k keys IH]; simpl; intros l l' Hsub Hinv H.
  - congruence.
  - destruct (order_step self l k) as [l1|] eqn:E; simpl in H;
      [|discriminate].
    apply (IH l1 l'); auto.
    apply (order_step_dangling l l1 k); auto.
Qed.

Lemma order_while_dangling (fuel : nat) :
  forall l l',
    keys_without_c self c l -> order_while fuel self l = Some (Ok l') ->
    keys_without_c self c l'.
Proof.
  induction fuel as [|fuel IH]; simpl; intros l l' Hinv H;
    destruct (Nat.ltb (List.length l) (List.length (_topology self)));
    try discriminate; try congruence.
  destruct (order_pass self (dict_keys (_topology self)) l) as [l1|] eqn:E;
    [|discriminate].
  apply (IH l1 l'); auto.
  apply (order_pass_dangling (dict_keys (_topology self)) l l1); auto.
Qed.

(** Every container declares a parent, so that the loop body reads the
    parent field without a [KeyError]. *)
Hypothesis parents_declared :
  forall k s, dict_get k (_topology self) = Some s ->
    exists q, py_getitem s _parent_field = Ok q.

Lemma order_step_returns (l : list string) (k : string) :
  In k (dict_keys (_topology self)) -> exists l', order_step self l k = Ok l'.
Proof.
  intros Hin. unfold order_step, topology_getitem. simpl.
  destruct (dict_get_key k _ Hin) as [s Hs]. rewrite Hs. simpl.
  destruct (parents_declared k s Hs) as [q ->]. simpl.
  match goal with
  | |- exists _, (if ?b then _ else _) = _ => destruct b
  end; eauto.
Qed.

Lemma order_pass_returns (keys : list string) :
  forall l,
    (forall k, In k keys -> In k (dict_keys (_topology self))) ->
    exists l', order_pass self keys l = Ok l'.
Proof.
  induction keys as [|k keys IH]; simpl; intros l Hsub; [eauto|].
  destruct (order_step_returns l k) as [l1 ->]; auto.
  simpl. apply IH. auto.
Qed.

Lemma order_while_no_error (fuel : nat) :
  forall l e, order_while fuel self l <> Some (Raise e).
Proof.
  induction fuel as [|fuel IH]; simpl; intros l e;
    destruct (Nat.ltb (List.length l) (List.length (_topology self)));
    try discriminate.
  destruct (order_pass_returns (dict_keys (_topology self)) l) as [l1 ->];
    auto.
Qed.

(** No container is declared under the root sentinel. *)
Hypothesis no_root :
  forall k s q, dict_get k (_topology self) = Some s ->
    py_getitem s _parent_field = Ok q ->
    py_eq_str q (_root_name self) = false.

Lemma order_pass_stuck (keys : list string) :
  (forall k, In k keys -> In k (dict_keys (_topology self))) ->
  order_pass self keys [] = Ok [].
Proof.
  induction keys as [|k keys IH]; simpl; intros Hsub; [reflexivity|].
  assert (Hstep : order_step self [] k = Ok []).
  { unfold order_step, topology_getitem. simpl.
    destruct (dict_get_key k (_topology self)) as [s Hs]; [now apply Hsub; left|].
    rewrite Hs. simpl.
    destruct (parents_declared k s Hs) as [q Hq]. rewrite Hq. simpl.
    now rewrite (no_root k s q Hs Hq). }
  rewrite Hstep. simpl. apply IH. auto.
Qed.

Lemma order_while_stuck (fuel : nat) : order_while fuel self [] = None.
Proof.
  assert (Hlen : Nat.ltb (List.length (@nil string))
                         (List.length (_topology self)) = true).
  { apply Nat.ltb_lt. destruct (_topology self); [discriminate c_spec|].
    simpl. lia. }
  induction fuel as [|fuel IH]; rewrite order_while_unfold, Hlen;
    [reflexivity|].
  rewrite order_pass_stuck by auto. exact IH.
Qed.

End Dangling.

(** C2, as the code has it: the loop has no test for a parent that is
    neither the root sentinel nor a key.  On a topology with such a
    container, every container declaring some parent, no error is ever
    reported and the container is never placed in the list; when moreover
    no container is declared under the root sentinel, the loop is still
    running after any number of passes. *)
Theorem ordered_list_containers_dangling_parent
    (self : ContainerInput) (c : string) (spec p : pyval) :
  dict_get c (_topology self) = Some spec ->
  py_getitem spec _parent_field = Ok p ->
  py_eq_str p (_root_name self) = false ->
  (forall k, In k (dict_keys (_topology self)) -> py_eq_str p k = false) ->
  (forall k s, dict_get k (_topology self) = Some s ->
     exists q, py_getitem s _parent_field = Ok q) ->
  (forall fuel e, ordered_list_containers fuel self <> Some (Raise e))
  /\ (forall fuel l,
        ordered_list_containers fuel self = Some (Ok l) -> ~ In c l)
  /\ ((forall k s q, dict_get k (_topology self) = Some s ->
         py_getitem s _parent_field = Ok q ->
         py_eq_str q (_root_name self) = false) ->
      forall fuel, ordered_list_containers fuel self = None).
Proof.
  intros Hspec Hparent Hroot Hkey Hdecl. unfold ordered_list_containers.
  split; [|split].
  - intros fuel e. now apply order_while_no_error.
  - intros fuel l H.
    assert (Hinv : keys_without_c self c l).
    { apply (order_while_dangling self c spec p Hspec Hparent Hroot Hkey
               fuel [] l); [|exact H].
      split; simpl; tauto. }
    apply Hinv.
  - intros Hnoroot fuel.
    eapply order_while_stuck; eauto.
Qed.

Lemma ordered_list_containers_dangling_parent_witness :
  (forall fuel e, ordered_list_containers fuel orphan_topology
                  <> Some (Raise e))
  /\ (forall fuel l,
        ordered_list_containers fuel orphan_topology = Some (Ok l) ->
        ~ In "B" l)
  /\ (forall fuel, ordered_list_containers fuel orphan_topology = None).
Proof.
  assert (Hdecl : forall k s,
             dict_get k (_topology orphan_topology) = Some s ->
             exists q, py_getitem s _parent_field = Ok q).
  { intros k s. cbv [orphan_topology _topology dict_get].
    destruct (String.eqb "B" k); [|discriminate].
    intros [= <-]. eexists. reflexivity. }
  assert (Hnoroot : forall k s q,
             dict_get k (_topology orphan_topology) = Some s ->
             py_getitem s _parent_field = Ok q ->
             py_eq_str q (_root_name orphan_topology) = false).
  { intros k s q. cbv [orphan_topology _topology dict_get].
    destruct (String.eqb "B" k); [|discriminate].
    intros [= <-] [= <-]. reflexivity. }
  destruct (ordered_list_containers_dangling_parent orphan_topology "B"
              (spec_of "X") (PyStr "X")) as [H1 [H2 H3]].
  - reflexivity.
  - reflexivity.
  - reflexivity.
  - simpl. intros k [<-|[]]. reflexivity.
  - exact Hdecl.
  - split; [exact H1 | split; [exact H2 | exact (H3 Hnoroot)]].
Defined.

(** C2 as stated fails: in [dangling_topology] the parent of [B] is
    neither the sentinel nor a key, and the loop ends after two passes
    with a list that repeats [A] in the place of [B]; no error is
    reported, whatever the number of passes allowed. *)
Lemma ordered_list_containers_dangling_counterexample :
  declared_parent dangling_topology "B" = Some "X"
  /\ "X" <> _root_name dangling_topology
  /\ ~ In "X" (dict_keys (_topology dangling_topology))
  /\ ordered_list_containers 2 dangling_topology = Some (Ok ["A"; "A"])
  /\ ~ (exists fuel e,
          ordered_list_containers fuel dangling_topology = Some (Raise e)).
Proof.
  repeat split.
  - discriminate.
  - simpl. intros [H|[H|[]]]; discriminate H.
  - intros [fuel [e H]].
    destruct fuel as [|[|fuel]]; try discriminate H.
    assert (H2 : ordered_list_containers (2 + fuel) dangling_topology
                 = Some (Ok ["A"; "A"])).
    { apply order_while_more_fuel. reflexivity. }
    simpl plus in H2. rewrite H2 in H. discriminate H.
Qed.

(** *** Topologies listed parents first *)

Lemma existsb_str_mem (p : string) (l : list string) :
  existsb (fun element => py_eq_str (PyStr p) element) l = str_mem p l.
Proof. reflexivity. Qed.

Lemma str_mem_app (x : string) (l1 l2 : list string) :
  str_mem x (l1 ++ l2) = str_mem x l1 || str_mem x l2.
Proof. unfold str_mem. apply existsb_app. Qed.

Lemma str_mem_last (x : string) (l : list string) :
  str_mem x (l ++ [x]) = true.
Proof.
  rewrite str_mem_app. simpl. rewrite String.eqb_refl.
  now rewrite orb_true_r.
Qed.

Lemma declared_parent_step (self : ContainerInput) (k p : string)
    (l : list string) :
  declared_parent self k = Some p ->
  order_step self l k =
  let l1 := if String.eqb p (_root_name self) then l ++ [k] else l in
  if str_mem p l1 && negb (str_mem k l1) then Ok (l1 ++ [k]) else Ok l1.
Proof.
  unfold declared_parent, order_step, topology_getitem. simpl.
  destruct (dict_get k (_topology self)) as [s|]; [|discriminate]. simpl.
  destruct (py_getitem s _parent_field) as [[| | |q| |]|]; try discriminate.
  intros [= ->]. reflexivity.
Qed.

Lemma order_pass_parents_first (self : ContainerInput) (keys : list string) :
  forall seen,
    distinct (seen ++ keys) = true ->
    parents_first self seen keys = true ->
    order_pass self keys seen = Ok (seen ++ keys).
Proof.
  induction keys as [|k keys IH]; intros seen Hd Hp; simpl.
  - now rewrite app_nil_r.
  - simpl in Hp.
    destruct (declared_parent self k) as [p|] eqn:Ep; [|discriminate].
    apply andb_true_iff in Hp. destruct Hp as [Hp Hrest].
    rewrite (declared_parent_step self k p seen Ep). simpl.
    assert (Hk : str_mem k seen = false).
    { clear - Hd. induction seen as [|x seen IH]; [reflexivity|].
      simpl in Hd. apply andb_true_iff in Hd. destruct Hd as [Hx Hd].
      simpl. rewrite (IH Hd), orb_false_r.
      apply negb_true_iff in Hx. rewrite str_mem_app in Hx.
      apply orb_false_iff in Hx. destruct Hx as [_ Hx]. simpl in Hx.
      apply orb_false_iff in Hx. destruct Hx as [Hx _].
      now rewrite String.eqb_sym. }
    assert (Hstep :
      (if str_mem p (if String.eqb p (_root_name self)
                     then seen ++ [k] else seen)
          && negb (str_mem k (if String.eqb p (_root_name self)
                              then seen ++ [k] else seen))
       then Ok ((if String.eqb p (_root_name self)
                 then seen ++ [k] else seen) ++ [k])
       else Ok (if String.eqb p (_root_name self) then seen ++ [k] else seen))
      = Ok (seen ++ [k])).
    { destruct (String.eqb p (_root_name self)).
      - now rewrite str_mem_last, andb_false_r.
      - simpl in Hp. now rewrite Hp, Hk. }
    rewrite Hstep. simpl.
    rewrite (IH (seen ++ [k])); [now rewrite <- app_assoc | | exact Hrest].
    now rewrite <- app_assoc.
Qed.

(** When the topology lists every container after its parent, one pass
    places every container and the list returned is the list of keys. *)
Theorem ordered_list_containers_parents_first (self : ContainerInput)
    (extra : nat) :
  distinct (dict_keys (_topology self)) = true ->
  parents_first self [] (dict_keys (_topology self)) = true ->
  ordered_list_containers (1 + extra) self
  = Some (Ok (dict_keys (_topology self))).
Proof.
  intros Hd Hp. apply order_while_more_fuel.
  unfold ordered_list_containers. rewrite order_while_unfold.
  destruct (Nat.ltb (List.length (@nil string))
                    (List.length (_topology self))) eqn:E.
  - rewrite (order_pass_parents_first self _ [] Hd Hp). simpl app.
    rewrite order_while_unfold.
    unfold dict_keys at 1. rewrite length_map, Nat.ltb_irrefl. reflexivity.
  - apply Nat.ltb_ge in E. destruct (_topology self); [reflexivity|].
    simpl in E. lia.
Qed.

Lemma ordered_list_containers_parents_first_demo :
  ordered_list_containers 1 demo_topology
  = Some (Ok (dict_keys (_topology demo_topology))).
Proof.
  apply (ordered_list_containers_parents_first demo_topology 0);
    reflexivity.
Defined.

(** ** [CvContainerTools] *)

(** *** Running a method step by step *)

Section Run.

Context {R : Type}.
Variable client : api_call -> R -> result pyval * R.

Lemma api_run (c : api_call) (w : world R) (r : result pyval) (s : R) :
  client c (remote w) = (r, s) ->
  api client c w = (r, mkWorld s (calls w ++ [c])).
Proof. unfold api. now intros ->. Qed.

Lemma bind_run {A B} (m : M R A) (k : A -> M R B) (w w' : world R) (a : A) :
  m w = (Ok a, w') -> bind m k w = k a w'.
Proof. unfold bind. now intros ->. Qed.

Lemma bind_raise {A B} (m : M R A) (k : A -> M R B) (w w' : world R)
    (e : exn) :
  m w = (Raise e, w') -> bind m k w = (Raise e, w').
Proof. unfold bind. now intros ->. Qed.

Lemma try_run {A B} (body : M R A) (handler : M R B) (orelse : A -> M R B)
    (w w' : world R) (a : A) :
  body w = (Ok a, w') ->
  try_except_CvpApiError body handler orelse w = orelse a w'.
Proof. unfold try_except_CvpApiError. now intros ->. Qed.

(** *** Methods that only look up *)

Lemma only_lookups_refl (w : world R) : only_lookups w w.
Proof. exists []. now rewrite app_nil_r. Qed.

Lemma only_lookups_trans (w1 w2 w3 : world R) :
  only_lookups w1 w2 -> only_lookups w2 w3 -> only_lookups w1 w3.
Proof.
  intros [l1 [E1 H1]] [l2 [E2 H2]]. exists (l1 ++ l2). split.
  - now rewrite E2, E1, app_assoc.
  - now rewrite forallb_app, H1, H2.
Qed.

Lemma reads_ret {A} (a : A) (post : A -> Prop) :
  post a -> reads_only (@ret R A a) post.
Proof.
  intros H w. split; [apply only_lookups_refl|].
  simpl. now intros a' [= <-].
Qed.

Lemma reads_raise {A} (e : exn) (post : A -> Prop) :
  reads_only (@raise R A e) post.
Proof. intros w. split; [apply only_lookups_refl | discriminate]. Qed.

Lemma reads_lift {A} (r : result A) (post : A -> Prop) :
  (forall a, r = Ok a -> post a) -> reads_only (@lift R A r) post.
Proof. intros H w. split; [apply only_lookups_refl | exact H]. Qed.

Lemma reads_api (c : api_call) :
  is_lookup c = true -> reads_only (api client c) (fun _ => True).
Proof.
  intros H w. unfold api. destruct (client c (remote w)) as [r s].
  split; [|trivial]. exists [c]. simpl. now rewrite H.
Qed.

Lemma reads_bind {A B} (m : M R A) (k : A -> M R B) (mid : A -> Prop)
    (post : B -> Prop) :
  reads_only m mid -> (forall a, mid a -> reads_only (k a) post) ->
  reads_only (bind m k) post.
Proof.
  intros Hm Hk w. unfold bind. destruct (Hm w) as [Hl Hp].
  destruct (m w) as [[a|e] w1]; simpl in *.
  - destruct (Hk a (Hp a eq_refl) w1) as [Hl' Hp'].
    split; [eapply only_lookups_trans; eassumption | exact Hp'].
  - split; [assumption | discriminate].
Qed.

Lemma reads_try {A B} (body : M R A) (handler : M R B) (orelse : A -> M R B)
    (mid : A -> Prop) (post : B -> Prop) :
  reads_only body mid -> reads_only handler post ->
  (forall a, mid a -> reads_only (orelse a) post) ->
  reads_only (try_except_CvpApiError body handler orelse) post.
Proof.
  intros Hb Hh Ho w. unfold try_except_CvpApiError.
  destruct (Hb w) as [Hl Hp].
  destruct (body w) as [[a|e] w1]; simpl in *.
  - destruct (Ho a (Hp a eq_refl) w1) as [Hl' Hp'].
    split; [eapply only_lookups_trans; eassumption | exact Hp'].
  - destruct e; try (split; [assumption | discriminate]).
    destruct (Hh w1) as [Hl' Hp'].
    split; [eapply only_lookups_trans; eassumption | exact Hp'].
Qed.

Lemma reads_weaken {A} (m : M R A) (P Q : A -> Prop) :
  reads_only m P -> (forall a, P a -> Q a) -> reads_only m Q.
Proof.
  intros H HPQ w. destruct (H w) as [Hl Hp]. split; auto.
Qed.

Lemma reads_is_container_exists (container_name : string) :
  reads_only (is_container_exists client container_name) (fun _ => True).
Proof.
  unfold is_container_exists.
  apply reads_try with (mid := fun _ => True).
  - now apply reads_api.
  - apply reads_raise.
  - intros a _. destruct (negb (is_none a)); now apply reads_ret.
Qed.

Lemma reads_get_container_info (container_name : string) :
  reads_only (get_container_info client container_name) (fun _ => True).
Proof.
  unfold get_container_info.
  eapply reads_bind; [now apply reads_api|]. intros cv _.
  eapply reads_bind; [now apply reads_lift with (post := fun _ => True)|].
  intros [|] _; [|now apply reads_ret].
  eapply reads_bind; [now apply reads_api|]. intros again _.
  eapply reads_bind; [now apply reads_lift with (post := fun _ => True)|].
  intros cid _.
  eapply reads_bind; [now apply reads_api|]. intros topo _.
  eapply reads_bind; [now apply reads_lift with (post := fun _ => True)|].
  intros facts _. now apply reads_lift.
Qed.

Lemma reads_get_configlet_info (configlet_name : string) :
  reads_only (_get_configlet_info client configlet_name) (fun _ => True).
Proof.
  unfold _get_configlet_info.
  eapply reads_bind; [now apply reads_api|]. intros data _.
  destruct (negb (is_none data)); [now apply reads_lift | now apply reads_ret].
Qed.

Lemma reads_collect_configlets (configlets : list string) :
  forall acc,
    reads_only (collect_configlets client configlets acc) (fun _ => True).
Proof.
  induction configlets as [|n configlets IH]; intros acc; simpl.
  - now apply reads_ret.
  - eapply reads_bind; [apply reads_get_configlet_info|]. intros data _.
    destruct (negb (is_none data)); apply IH.
Qed.

Lemma reads_configlet_add_check_mode (container : pyval)
    (configlets : list pyval) (save_topology : bool) :
  reads_only (_configlet_add client true container configlets save_topology)
    (fun res => (success res = true
                 /\ taskIds res = PyList [PyStr "check_mode"])
                \/ res = new_CvApiResult "Undefined").
Proof.
  unfold _configlet_add.
  destruct (negb (is_none container)); [|apply reads_ret; now right].
  eapply reads_bind; [now apply reads_lift with (post := fun _ => True)|].
  intros names _.
  eapply reads_bind; [now apply reads_lift with (post := fun _ => True)|].
  intros action _. apply reads_ret. left. split; reflexivity.
Qed.

Lemma reads_configlet_del_check_mode (container : pyval)
    (configlets : list pyval) (save_topology : bool) :
  reads_only (_configlet_del client true container configlets save_topology)
    (fun res => success res = true
                /\ taskIds res = PyList [PyStr "check_mode"]).
Proof.
  unfold _configlet_del.
  eapply reads_bind; [now apply reads_lift with (post := fun _ => True)|].
  intros names _.
  eapply reads_bind; [now apply reads_lift with (post := fun _ => True)|].
  intros action _. apply reads_ret. split; reflexivity.
Qed.

Lemma reads_create_container_check_mode (container parent : string) :
  reads_only (create_container client true container parent)
    (fun res => (success res = true /\ changed res = true)
                \/ res = new_CvApiResult container).
Proof.
  unfold create_container.
  eapply reads_bind; [apply reads_is_container_exists|].
  intros [|] _; [|apply reads_ret; now right].
  eapply reads_bind; [now apply reads_api|]. intros info _.
  eapply reads_bind; [now apply reads_lift with (post := fun _ => True)|].
  intros parent_id _.
  eapply reads_bind; [apply reads_is_container_exists|].
  intros [|] _; simpl; apply reads_ret; [now right | left; split; reflexivity].
Qed.

End Run.

(** *** Lookups of containers *)

Lemma dict_get_standard (k : string) (d : dict) :
  In k standard_keys ->
  dict_get k (filter (fun kv => str_mem (fst kv) standard_keys) d)
  = dict_get k d.
Proof.
  intros Hk. induction d as [|[k' v] d IH]; [reflexivity|].
  cbn [filter fst].
  destruct (str_mem k' standard_keys) eqn:E; cbn [dict_get].
  - now rewrite IH.
  - destruct (String.eqb k' k) eqn:Ek; [|exact IH].
    apply String.eqb_eq in Ek. subst k'.
    apply str_mem_false in E. contradiction.
Qed.

Lemma bind_lift {R A B} (r : result A) (k : A -> M R B) (w : world R) :
  bind (lift r) k w =
  match r with
  | Ok a => k a w
  | Raise e => (Raise e, w)
  end.
Proof. unfold bind, lift. now destruct r. Qed.

Lemma py_contains_standard (k : string) (facts : dict) :
  In k standard_keys ->
  py_contains k
    (PyDict (filter (fun kv => str_mem (fst kv) standard_keys) facts))
  = Ok (dict_mem k facts).
Proof.
  intros Hk. unfold py_contains, dict_mem. now rewrite dict_get_standard.
Qed.

Lemma py_getitem_standard (k : string) (facts : dict) :
  In k standard_keys ->
  py_getitem
    (PyDict (filter (fun kv => str_mem (fst kv) standard_keys) facts)) k
  = py_getitem (PyDict facts) k.
Proof.
  intros Hk. unfold py_getitem. now rewrite dict_get_standard.
Qed.

Lemma count_devices_standard : In FIELD_COUNT_DEVICES standard_keys.
Proof. simpl. tauto. Qed.

Lemma count_containers_standard : In FIELD_COUNT_CONTAINERS standard_keys.
Proof. simpl. tauto. Qed.

Section Container.

Context {R : Type}.
Variable client : api_call -> R -> result pyval * R.
Variable container_name : string.

(** The registry holds no container of that name. *)
Lemma get_container_info_missing (w : world R) (s : R) :
  client (api_get_container_by_name container_name) (remote w)
  = (Ok PyNone, s) ->
  get_container_info client container_name w
  = (Ok PyNone,
     mkWorld s (calls w ++ [api_get_container_by_name container_name])).
Proof.
  intros H. unfold get_container_info.
  rewrite (bind_run _ _ _ _ _ (api_run client _ _ _ _ H)). reflexivity.
Qed.

Lemma is_container_exists_missing (w : world R) (s : R) :
  client (api_get_container_by_name container_name) (remote w)
  = (Ok PyNone, s) ->
  is_container_exists client container_name w
  = (Ok false,
     mkWorld s (calls w ++ [api_get_container_by_name container_name])).
Proof.
  intros H. unfold is_container_exists.
  rewrite (try_run _ _ _ _ _ _ (api_run client _ _ _ _ H)). reflexivity.
Qed.

(** In the state [s], the registry holds a record [d] for the name, with
    the key [container_id], and answers [topology] to the topology filter
    on that key, with the facts [facts]; these lookups leave the registry
    in the state [s]. *)
Variable s : R.
Variable d facts : dict.
Variable container_id topology : pyval.

Hypothesis lookup :
  client (api_get_container_by_name container_name) s = (Ok (PyDict d), s).
Hypothesis lookup_key : dict_get FIELD_KEY d = Some container_id.
Hypothesis topology_filter :
  client (api_filter_topology container_id) s = (Ok topology, s).
Hypothesis filter_facts :
  py_getitem topology FIELD_TOPOLOGY = Ok (PyDict facts).

Lemma is_container_exists_found (w : world R) :
  remote w = s ->
  is_container_exists client container_name w
  = (Ok true,
     mkWorld s (calls w ++ [api_get_container_by_name container_name])).
Proof.
  intros Hw. unfold is_container_exists.
  erewrite try_run by (apply api_run; rewrite Hw; exact lookup).
  reflexivity.
Qed.

Lemma get_container_info_found (w : world R) :
  remote w = s ->
  get_container_info client container_name w
  = (Ok (PyDict (filter (fun kv => str_mem (fst kv) standard_keys) facts)),
     mkWorld s
       (calls w ++ [api_get_container_by_name container_name;
                    api_get_container_by_name container_name;
                    api_filter_topology container_id])).
Proof.
  intros Hw. unfold get_container_info.
  erewrite bind_run by (apply api_run; rewrite Hw; exact lookup).
  unfold lift, bind at 1. simpl. unfold dict_mem. rewrite lookup_key.
  erewrite bind_run by (apply api_run; simpl; exact lookup).
  unfold lift, bind at 1. simpl. rewrite lookup_key.
  erewrite bind_run by (apply api_run; simpl; exact topology_filter).
  unfold lift, bind. simpl. rewrite filter_facts. simpl.
  now rewrite <- !app_assoc.
Qed.

(** With one device in the container, whatever the number of containers
    in it. *)
Hypothesis one_device :
  dict_get FIELD_COUNT_DEVICES facts = Some (PyInt 1).

Lemma is_empty_with_device (w : world R) :
  remote w = s ->
  is_empty client container_name w
  = (Ok false,
     mkWorld s
       (calls w ++ [api_get_container_by_name container_name;
                    api_get_container_by_name container_name;
                    api_filter_topology container_id])).
Proof.
  intros Hw. unfold is_empty.
  rewrite (bind_run _ _ _ _ _ (get_container_info_found w Hw)).
  rewrite bind_lift, (py_contains_standard _ _ count_containers_standard).
  unfold dict_mem at 1.
  destruct (dict_get FIELD_COUNT_CONTAINERS facts) as [v|] eqn:Ev;
    [|now rewrite bind_lift].
  rewrite bind_lift, (py_contains_standard _ _ count_devices_standard).
  unfold dict_mem at 1. rewrite one_device.
  rewrite bind_lift, (py_getitem_standard _ _ count_containers_standard).
  unfold py_getitem at 1. rewrite Ev.
  destruct (py_eq_int v 0); [|reflexivity].
  rewrite bind_lift, (py_getitem_standard _ _ count_devices_standard).
  unfold py_getitem at 1. rewrite one_device. reflexivity.
Qed.

Lemma delete_container_with_device_run (check_mode : bool) (parent : string)
    (w : world R) :
  remote w = s ->
  delete_container client check_mode container_name parent w
  = (Ok (new_CvApiResult container_name),
     mkWorld s
       (calls w ++ [api_get_container_by_name container_name;
                    api_get_container_by_name container_name;
                    api_get_container_by_name container_name;
                    api_filter_topology container_id])).
Proof.
  intros Hw. unfold delete_container.
  rewrite (bind_run _ _ _ _ _ (is_container_exists_found w Hw)).
  erewrite bind_run by (apply is_empty_with_device; reflexivity).
  unfold ret. simpl. now rewrite <- app_assoc.
Qed.

End Container.

(** C6: when the record of the container in the registry counts one
    device, [delete_container] returns the result it started from, with
    success off, after the lookups of the existence and emptiness tests;
    no deletion is sent, in check mode or not. *)
Theorem delete_container_with_device {R : Type}
    (client : api_call -> R -> result pyval * R) (check_mode : bool)
    (container parent : string) (w : world R)
    (d facts : dict) (container_id topology : pyval) :
  client (api_get_container_by_name container) (remote w)
  = (Ok (PyDict d), remote w) ->
  dict_get FIELD_KEY d = Some container_id ->
  client (api_filter_topology container_id) (remote w)
  = (Ok topology, remote w) ->
  py_getitem topology FIELD_TOPOLOGY = Ok (PyDict facts) ->
  dict_get FIELD_COUNT_DEVICES facts = Some (PyInt 1) ->
  exists res w',
    delete_container client check_mode container parent w = (Ok res, w')
    /\ success res = false
    /\ changed res = false
    /\ remote w' = remote w
    /\ calls w' = calls w ++ [api_get_container_by_name container;
                              api_get_container_by_name container;
                              api_get_container_by_name container;
                              api_filter_topology container_id]
    /\ only_lookups w w'.
Proof.
  intros Hl Hk Hf Hfacts Hdev.
  do 2 eexists. split.
  - apply (delete_container_with_device_run client container (remote w)
             d facts container_id topology Hl Hk Hf Hfacts Hdev
             check_mode parent w eq_refl).
  - repeat split. eexists. split; reflexivity.
Qed.

Lemma delete_container_with_device_witness :
  (exists res w',
     delete_container registry_client false "DC2" "Tenant" demo_world
     = (Ok res, w')
     /\ success res = false /\ changed res = false
     /\ remote w' = remote demo_world
     /\ calls w' = calls demo_world
                   ++ [api_get_container_by_name "DC2";
                       api_get_container_by_name "DC2";
                       api_get_container_by_name "DC2";
                       api_filter_topology (PyStr "container_2")]
     /\ only_lookups demo_world w')
  /\ (exists res w',
        delete_container registry_client true "DC2" "Tenant" demo_world
        = (Ok res, w')
        /\ success res = false /\ changed res = false
        /\ remote w' = remote demo_world
        /\ calls w' = calls demo_world
                      ++ [api_get_container_by_name "DC2";
                          api_get_container_by_name "DC2";
                          api_get_container_by_name "DC2";
                          api_filter_topology (PyStr "container_2")]
        /\ only_lookups demo_world w').
Proof.
  split;
    eapply (delete_container_with_device registry_client _ "DC2" "Tenant"
              demo_world);
    reflexivity.
Defined.

(** C10: when the registry has no container of the name,
    [get_container_info] returns [None] and the membership test of
    [is_empty] on it raises a [TypeError]; [delete_container] does not
    get there, since its existence test comes first and fails. *)
Theorem is_empty_needs_existing_container {R : Type}
    (client : api_call -> R -> result pyval * R) (check_mode : bool)
    (container_name parent : string) (w : world R) (s : R) :
  client (api_get_container_by_name container_name) (remote w)
  = (Ok PyNone, s) ->
  let w' :=
    mkWorld s (calls w ++ [api_get_container_by_name container_name]) in
  get_container_info client container_name w = (Ok PyNone, w')
  /\ is_empty client container_name w = (Raise TypeError, w')
  /\ is_container_exists client container_name w = (Ok false, w')
  /\ delete_container client check_mode container_name parent w
     = (Ok (new_CvApiResult container_name), w').
Proof.
  intros H w'. repeat split.
  - now apply get_container_info_missing.
  - unfold is_empty.
    rewrite (bind_run _ _ _ _ _
               (get_container_info_missing client container_name w s H)).
    reflexivity.
  - now apply is_container_exists_missing.
  - unfold delete_container.
    rewrite (bind_run _ _ _ _ _
               (is_container_exists_missing client container_name w s H)).
    reflexivity.
Qed.

Lemma is_empty_needs_existing_container_witness :
  let w' := mkWorld demo_registry [api_get_container_by_name "DC9"] in
  get_container_info registry_client "DC9" demo_world = (Ok PyNone, w')
  /\ is_empty registry_client "DC9" demo_world = (Raise TypeError, w')
  /\ is_container_exists registry_client "DC9" demo_world = (Ok false, w')
  /\ delete_container registry_client false "DC9" "Tenant" demo_world
     = (Ok (new_CvApiResult "DC9"), w').
Proof.
  apply (is_empty_needs_existing_container registry_client false "DC9"
           "Tenant" demo_world demo_registry).
  reflexivity.
Defined.

(** Where the container exists, [is_empty] returns a boolean. *)
Lemma is_empty_of_existing_container {R : Type}
    (client : api_call -> R -> result pyval * R)
    (container_name : string) (w : world R)
    (d facts : dict) (container_id topology : pyval) :
  client (api_get_container_by_name container_name) (remote w)
  = (Ok (PyDict d), remote w) ->
  dict_get FIELD_KEY d = Some container_id ->
  client (api_filter_topology container_id) (remote w)
  = (Ok topology, remote w) ->
  py_getitem topology FIELD_TOPOLOGY = Ok (PyDict facts) ->
  exists b w', is_empty client container_name w = (Ok b, w').
Proof.
  intros Hl Hk Hf Hfacts. unfold is_empty.
  rewrite (bind_run _ _ _ _ _
             (get_container_info_found client container_name (remote w)
                d facts container_id topology Hl Hk Hf Hfacts w eq_refl)).
  rewrite bind_lift, (py_contains_standard _ _ count_containers_standard).
  unfold dict_mem at 1.
  destruct (dict_get FIELD_COUNT_CONTAINERS facts) as [v|] eqn:Ev;
    [|rewrite bind_lift; unfold ret; eauto].
  rewrite bind_lift, (py_contains_standard _ _ count_devices_standard).
  unfold dict_mem at 1.
  destruct (dict_get FIELD_COUNT_DEVICES facts) as [v'|] eqn:Ev';
    [|unfold ret; eauto].
  rewrite bind_lift, (py_getitem_standard _ _ count_containers_standard).
  unfold py_getitem at 1. rewrite Ev.
  destruct (py_eq_int v 0); [|unfold ret; eauto].
  rewrite bind_lift, (py_getitem_standard _ _ count_devices_standard).
  unfold py_getitem at 1. rewrite Ev'.
  destruct (py_eq_int v' 0); unfold ret; eauto.
Qed.

(** *** Attaching configlets *)

Lemma get_configlet_info_run {R : Type}
    (client : api_call -> R -> result pyval * R) (n : string) (w : world R)
    (v : pyval) (s : R) :
  client (api_get_configlet_by_name n) (remote w) = (Ok v, s) ->
  v = PyNone \/ (exists d, v = PyDict d) ->
  _get_configlet_info client n w
  = (Ok (match v with
         | PyDict d =>
             PyDict (filter (fun kv => str_mem (fst kv) standard_keys) d)
         | _ => PyNone
         end),
     mkWorld s (calls w ++ [api_get_configlet_by_name n])).
Proof.
  intros H Hv. unfold _get_configlet_info.
  rewrite (bind_run _ _ _ _ _ (api_run client _ _ _ _ H)).
  destruct Hv as [->|[d ->]]; reflexivity.
Qed.

Lemma collect_configlets_run {R : Type}
    (client : api_call -> R -> result pyval * R) (s : R)
    (resolve : string -> pyval) (names : list string) :
  (forall n, In n names ->
     client (api_get_configlet_by_name n) s = (Ok (resolve n), s)) ->
  (forall n, In n names ->
     resolve n = PyNone \/ exists d, resolve n = PyDict d) ->
  forall acc w,
    remote w = s ->
    collect_configlets client names acc w
    = (Ok (acc ++ resolved_batch resolve names),
       mkWorld s (calls w ++ map api_get_configlet_by_name names)).
Proof.
  induction names as [|n names IH]; intros Hres Hshape acc w Hw.
  - simpl. unfold ret. rewrite !app_nil_r. destruct w. simpl in Hw.
    now subst.
  - cbn [collect_configlets].
    assert (Hn : client (api_get_configlet_by_name n) (remote w)
                 = (Ok (resolve n), s))
      by (rewrite Hw; apply Hres; now left).
    assert (Hv := Hshape n (or_introl eq_refl)).
    rewrite (bind_run _ _ _ _ _ (get_configlet_info_run client n w _ s Hn Hv)).
    assert (Hres' : forall m, In m names ->
              client (api_get_configlet_by_name m) s = (Ok (resolve m), s))
      by (intros; apply Hres; now right).
    assert (Hshape' : forall m, In m names ->
              resolve m = PyNone \/ exists d, resolve m = PyDict d)
      by (intros; apply Hshape; now right).
    cbn [resolved_batch flat_map].
    destruct Hv as [E|[d E]]; rewrite E; cbn [is_none negb];
      rewrite (IH Hres' Hshape') by reflexivity; cbn [calls app];
      now rewrite <- !app_assoc.
Qed.

Lemma resolved_batch_unresolved (resolve : string -> pyval)
    (names : list string) :
  (forall n, In n names -> resolve n = PyNone) ->
  resolved_batch resolve names = [].
Proof.
  induction names as [|n names IH]; intros H; [reflexivity|].
  cbn [resolved_batch flat_map]. rewrite (H n) by now left.
  apply IH. intros m Hm. apply H. now right.
Qed.

Lemma resolved_batch_In (resolve : string -> pyval) (names : list string)
    (x : pyval) :
  In x (resolved_batch resolve names) ->
  exists n, In n names /\ resolve n <> PyNone
            /\ _standard_output (resolve n) = Ok x.
Proof.
  unfold resolved_batch. rewrite in_flat_map. intros [n [Hn Hx]].
  exists n. split; [exact Hn|].
  destruct (resolve n); simpl in Hx; try contradiction.
  destruct Hx as [<-|[]]. split; [discriminate | reflexivity].
Qed.

(** C7: [configlets_attach] looks every requested name up, in order, and
    hands [_configlet_add] the records of the names that resolve, and of
    those only.  When no name resolves the batch is empty: in check mode
    the attachment is reported as a success without a call, and otherwise
    the empty batch is sent and the success the registry answers is
    reported; nothing in the result tells that names were dropped. *)
Theorem configlets_attach_drops_unresolved {R : Type}
    (client : api_call -> R -> result pyval * R) (check_mode : bool)
    (container : string) (names : list string) (strict : bool)
    (w w1 : world R) (container_info : pyval) (resolve : string -> pyval) :
  get_container_info client container w = (Ok container_info, w1) ->
  (forall n, In n names ->
     client (api_get_configlet_by_name n) (remote w1)
     = (Ok (resolve n), remote w1)) ->
  (forall n, In n names ->
     resolve n = PyNone \/ exists d, resolve n = PyDict d) ->
  let w2 :=
    mkWorld (remote w1) (calls w1 ++ map api_get_configlet_by_name names) in
  configlets_attach client check_mode container names strict w
  = _configlet_add client check_mode container_info
      (resolved_batch resolve names) true w2
  /\ (forall x, In x (resolved_batch resolve names) ->
        exists n, In n names /\ resolve n <> PyNone
                  /\ _standard_output (resolve n) = Ok x)
  /\ ((forall n, In n names -> resolve n = PyNone) ->
      forall cinfo cname,
        container_info = PyDict cinfo ->
        dict_get FIELD_NAME cinfo = Some (PyStr cname) ->
        (check_mode = true ->
         configlets_attach client check_mode container names strict w
         = (Ok (mkCvApiResult (cname ++ ":") true false
                  (PyList [PyStr "check_mode"]) 0), w2))
        /\ (check_mode = false ->
            forall resp data tasks s,
              client (api_apply_configlets_to_container
                        "ansible_cv_container" [] container_info true)
                     (remote w1) = (Ok resp, s) ->
              py_getitem resp "data" = Ok data ->
              py_getitem data "status" = Ok (PyStr "success") ->
              py_getitem data "taskIds" = Ok tasks ->
              configlets_attach client check_mode container names strict w
              = (Ok (mkCvApiResult (cname ++ ":") true false tasks 0),
                 mkWorld s
                   (calls w2 ++
                    [api_apply_configlets_to_container
                       "ansible_cv_container" [] container_info true])))).
Proof.
  intros Hinfo Hres Hshape w2.
  assert (Hrun :
    configlets_attach client check_mode container names strict w
    = _configlet_add client check_mode container_info
        (resolved_batch resolve names) true w2).
  { unfold configlets_attach.
    rewrite (bind_run _ _ _ _ _ Hinfo).
    rewrite (bind_run _ _ _ _ _
               (collect_configlets_run client (remote w1) resolve names
                  Hres Hshape [] w1 eq_refl)).
    reflexivity. }
  split; [exact Hrun | split; [apply resolved_batch_In|]].
  intros Hnone cinfo cname -> Hname. rewrite Hrun.
  rewrite (resolved_batch_unresolved resolve names Hnone).
  unfold _configlet_add, action_name_of.
  cbn [is_none negb configlet_names_of py_getitem].
  rewrite Hname, !bind_lift. cbn [rbind py_add_str py_join].
  split; intros ->.
  - unfold ret. cbn. now rewrite append_empty_r.
  - intros resp data tasks s Hcall Hdata Hstatus Htasks.
    rewrite (try_run _ _ _ _ _ _ (api_run client _ w2 _ _ Hcall)).
    unfold lift, configlet_response.
    assert (Hin : py_contains "data" resp = Ok true).
    { destruct resp; try discriminate Hdata. simpl in *.
      unfold dict_mem. destruct (dict_get "data" d); [reflexivity|].
      discriminate Hdata. }
    rewrite Hin. cbn [rbind]. rewrite Hdata. cbn [rbind].
    rewrite Hstatus, Htasks. cbn. now rewrite append_empty_r.
Qed.

Lemma configlets_attach_drops_unresolved_witness :
  configlets_attach registry_client false "DC1" ["missing"] false demo_world
  = (Ok (mkCvApiResult "DC1:" true false (PyList [PyStr "12"]) 0),
     mkWorld demo_registry
       [api_get_container_by_name "DC1";
        api_get_container_by_name "DC1";
        api_filter_topology (PyStr "container_1");
        api_get_configlet_by_name "missing";
        api_apply_configlets_to_container "ansible_cv_container" []
          (PyDict [(FIELD_KEY, PyStr "container_1"); (FIELD_NAME, PyStr "DC1");
                   (FIELD_COUNT_CONTAINERS, PyInt 0);
                   (FIELD_COUNT_DEVICES, PyInt 0);
                   (FIELD_PARENT_ID, PyStr "root")]) true]).
Proof.
  pose (resolve := fun n : string =>
          match dict_get n (configlets demo_registry) with
          | Some v => v
          | None => PyNone
          end).
  edestruct (configlets_attach_drops_unresolved registry_client false "DC1"
               ["missing"] false demo_world _ _ resolve eq_refl)
    as [_ [_ H]].
  - intros n [<-|[]]. reflexivity.
  - intros n [<-|[]]. now left.
  - edestruct H as [_ H'].
    + intros n [<-|[]]. reflexivity.
    + reflexivity.
    + reflexivity.
    + apply (H' eq_refl (success_response (PyList [PyStr "12"]))
                (PyDict [("status", PyStr "success");
                         ("taskIds", PyList [PyStr "12"])])
                (PyList [PyStr "12"]) demo_registry);
        reflexivity.
Defined.

(** *** Creation *)

(** C5: on a registry with [Tenant] and without [DC3], out of check mode,
    the first creation of [DC3] sends the creation call and reports
    success with a count of one, and the second is a no-op that only
    looks up; the changed flag, which the code sets in check mode only, is
    off after the first call as it is after the second. *)
Theorem create_container_twice :
  exists first w1 second w2,
    create_container registry_client false "DC3" "Tenant" demo_world
    = (Ok first, w1)
    /\ success first = true /\ count first = 1%Z
    /\ changed first = false
    /\ calls w1 = [api_get_container_by_name "Tenant";
                   api_get_container_by_name "Tenant";
                   api_get_container_by_name "DC3";
                   api_add_container "DC3" (PyStr "root") "Tenant"]
    /\ create_container registry_client false "DC3" "Tenant" w1
       = (Ok second, w2)
    /\ second = new_CvApiResult "DC3"
    /\ success second = false /\ changed second = false
    /\ remote w2 = remote w1
    /\ only_lookups w1 w2.
Proof.
  do 4 eexists. split; [reflexivity|].
  do 4 (split; [reflexivity|]).
  split; [reflexivity|].
  do 4 (split; [reflexivity|]).
  eexists. split; reflexivity.
Qed.

(** Out of check mode no path of [create_container] sets the changed
    flag. *)
Lemma create_container_never_changed {R : Type}
    (client : api_call -> R -> result pyval * R)
    (container parent : string) (w w' : world R) (res : CvApiResult) :
  create_container client false container parent w = (Ok res, w') ->
  changed res = false.
Proof.
  unfold create_container, is_container_exists, try_except_CvpApiError,
    bind, lift, ret, raise, api.
  intros H.
  repeat match type of H with
         | context [match ?x with _ => _ end] =>
             destruct x eqn:?; try discriminate H
         | context [if ?x then _ else _] =>
             destruct x eqn:?; try discriminate H
         end;
    injection H as <- _; reflexivity.
Qed.

(** In check mode, with the parent in the registry and the container not
    in it, [create_container] returns after its three lookups. *)
Lemma create_container_check_mode_run {R : Type}
    (client : api_call -> R -> result pyval * R)
    (container parent : string) (s : R) (pd : dict) (parent_id : pyval)
    (w : world R) :
  remote w = s ->
  client (api_get_container_by_name parent) s = (Ok (PyDict pd), s) ->
  dict_get FIELD_KEY pd = Some parent_id ->
  client (api_get_container_by_name container) s = (Ok PyNone, s) ->
  create_container client true container parent w
  = (Ok (mkCvApiResult container true true (PyList []) 0),
     mkWorld s (calls w ++ [api_get_container_by_name parent;
                            api_get_container_by_name parent;
                            api_get_container_by_name container])).
Proof.
  intros Hw Hparent Hkey Hmissing. unfold create_container.
  rewrite (bind_run _ _ _ _ _
             (is_container_exists_found client parent s pd Hparent w Hw)).
  erewrite bind_run by (apply api_run; exact Hparent).
  rewrite bind_lift. cbn [py_getitem]. rewrite Hkey.
  erewrite bind_run
    by (apply is_container_exists_missing; exact Hmissing).
  unfold ret. cbn. now rewrite <- !app_assoc.
Qed.

(** C4, as the code has it: in check mode the three operations still
    query the registry, and that is all they do with it.  The calls they
    add to the record of the client are lookups, never a creation or an
    attachment or a detachment; a result they return either reports
    success or is the result no operation has touched; and the creation
    of a container that is missing under a parent that exists returns
    success after three lookups. *)
Theorem check_mode_only_lookups {R : Type}
    (client : api_call -> R -> result pyval * R)
    (container parent : string) (configlets : list string) (strict : bool) :
  reads_only (create_container client true container parent)
    (fun res => (success res = true /\ changed res = true)
                \/ res = new_CvApiResult container)
  /\ reads_only (configlets_attach client true container configlets strict)
       (fun res => (success res = true
                    /\ taskIds res = PyList [PyStr "check_mode"])
                   \/ res = new_CvApiResult "Undefined")
  /\ reads_only (configlets_detach client true container configlets strict)
       (fun res => success res = true
                   /\ taskIds res = PyList [PyStr "check_mode"])
  /\ (forall (w : world R) (pd : dict) (parent_id : pyval),
        client (api_get_container_by_name parent) (remote w)
        = (Ok (PyDict pd), remote w) ->
        dict_get FIELD_KEY pd = Some parent_id ->
        client (api_get_container_by_name container) (remote w)
        = (Ok PyNone, remote w) ->
        create_container client true container parent w
        = (Ok (mkCvApiResult container true true (PyList []) 0),
           mkWorld (remote w)
             (calls w ++ [api_get_container_by_name parent;
                          api_get_container_by_name parent;
                          api_get_container_by_name container]))).
Proof.
  split; [apply reads_create_container_check_mode | split; [|split]].
  - unfold configlets_attach.
    eapply reads_bind; [apply reads_get_container_info|]. intros info _.
    eapply reads_bind; [apply reads_collect_configlets|]. intros batch _.
    apply reads_configlet_add_check_mode.
  - unfold configlets_detach.
    eapply reads_bind; [apply reads_get_container_info|]. intros info _.
    eapply reads_bind; [apply reads_collect_configlets|]. intros batch _.
    apply reads_configlet_del_check_mode.
  - intros w pd parent_id Hparent Hkey Hmissing.
    now apply (create_container_check_mode_run client container parent
                 (remote w) pd parent_id w eq_refl).
Qed.

Lemma check_mode_only_lookups_witness :
  create_container registry_client true "DC3" "Tenant" demo_world
  = (Ok (mkCvApiResult "DC3" true true (PyList []) 0),
     mkWorld demo_registry
       [api_get_container_by_name "Tenant";
        api_get_container_by_name "Tenant";
        api_get_container_by_name "DC3"]).
Proof.
  eapply (proj2 (proj2 (proj2
            (check_mode_only_lookups registry_client "DC3" "Tenant" [] false)))
            demo_world);
    reflexivity.
Defined.

(** C4 as stated fails: in check mode, the creation of [DC3] under
    [Tenant] reports success after three lookups of the registry. *)
Lemma check_mode_calls_counterexample :
  exists res w',
    create_container registry_client true "DC3" "Tenant" demo_world
    = (Ok res, w')
    /\ success res = true /\ changed res = true
    /\ calls w' = [api_get_container_by_name "Tenant";
                   api_get_container_by_name "Tenant";
                   api_get_container_by_name "DC3"]
    /\ calls w' <> calls demo_world.
Proof.
  do 2 eexists. split; [reflexivity|].
  repeat split. discriminate.
Qed.

(** *** Exceptions *)

(** A registry error in the lookup of [is_container_exists] is caught, and
    the test of the unbound [cv_data] raises in its place. *)
Lemma is_container_exists_registry_error {R : Type}
    (client : api_call -> R -> result pyval * R)
    (container_name : string) (w : world R) (s : R) :
  client (api_get_container_by_name container_name) (remote w)
  = (Raise CvpApiError, s) ->
  is_container_exists client container_name w
  = (Raise UnboundLocalError,
     mkWorld s (calls w ++ [api_get_container_by_name container_name])).
Proof.
  intros H. unfold is_container_exists, try_except_CvpApiError.
  now rewrite (api_run client _ _ _ _ H).
Qed.

(** [_configlet_del] has no guard for a container that was not found. *)
Lemma configlets_detach_missing_container {R : Type}
    (client : api_call -> R -> result pyval * R) (check_mode : bool)
    (container : string) (strict : bool) (w : world R) (s : R) :
  client (api_get_container_by_name container) (remote w) = (Ok PyNone, s) ->
  configlets_detach client check_mode container [] strict w
  = (Raise TypeError,
     mkWorld s (calls w ++ [api_get_container_by_name container])).
Proof.
  intros H. unfold configlets_detach.
  rewrite (bind_run _ _ _ _ _
             (get_container_info_missing client container w s H)).
  reflexivity.
Qed.

(** C3: exceptions that reach the caller.  With a client that raises the
    registry error, [is_container_exists], [create_container] and
    [delete_container] raise [UnboundLocalError] and [configlets_attach]
    lets the registry error through; with a registry that answers every
    call, [configlets_detach] on a container that does not exist raises
    [TypeError], in check mode too. *)
Theorem exceptions_reach_the_caller :
  fst (is_container_exists failing_client "DC1" demo_world)
  = Raise UnboundLocalError
  /\ fst (create_container failing_client false "DC3" "Tenant" demo_world)
     = Raise UnboundLocalError
  /\ fst (delete_container failing_client false "DC1" "Tenant" demo_world)
     = Raise UnboundLocalError
  /\ fst (configlets_attach failing_client false "DC1" ["ALIASES"] false
            demo_world)
     = Raise CvpApiError
  /\ fst (configlets_detach registry_client false "DC9" ["ALIASES"] false
            demo_world)
     = Raise TypeError
  /\ fst (configlets_detach registry_client true "DC9" ["ALIASES"] false
            demo_world)
     = Raise TypeError.
Proof. repeat split. Qed.

(** * Further properties *)

(** ** The ordering loop *)

Section Ordering.

Variable self : ContainerInput.

Lemma order_step_extends (l l' : list string) (k : string) :
  order_step self l k = Ok l' ->
  exists suffix, l' = l ++ suffix /\ forall x, In x suffix -> x = k.
Proof.
  unfold order_step.
  destruct (topology_getitem self k) as [spec|]; simpl; [|discriminate].
  destruct (py_getitem spec _parent_field) as [q|]; simpl; [|discriminate].
  destruct (py_eq_str q (_root_name self));
    match goal with
    | |- (if ?b then _ else _) = _ -> _ => destruct b
    end; intros [= <-].
  - exists [k; k]. rewrite <- app_assoc. split; [reflexivity|].
    simpl. intuition.
  - exists [k]. split; [reflexivity|]. simpl. intuition.
  - exists [k]. split; [reflexivity|]. simpl. intuition.
  - exists []. rewrite app_nil_r. split; [reflexivity|]. simpl. intuition.
Qed.

Lemma order_pass_extends (keys : list string) :
  forall l l',
    order_pass self keys l = Ok l' ->
    exists suffix, l' = l ++ suffix /\ forall x, In x suffix -> In x keys.
Proof.
  induction keys as [|k keys IH]; simpl; intros l l' H.
  - injection H as <-. exists []. rewrite app_nil_r. simpl. intuition.
  - destruct (order_step self l k) as [l1|] eqn:E; simpl in H;
      [|discriminate].
    destruct (order_step_extends l l1 k E) as [s1 [-> H1]].
    destruct (IH _ _ H) as [s2 [-> H2]].
    exists (s1 ++ s2). rewrite app_assoc. split; [reflexivity|].
    intros x Hx. apply in_app_or in Hx. destruct Hx as [Hx|Hx].
    + left. symmetry. now apply H1.
    + right. now apply H2.
Qed.

Lemma order_while_extends (fuel : nat) :
  forall l l',
    order_while fuel self l = Some (Ok l') ->
    exists suffix,
      l' = l ++ suffix
      /\ forall x, In x suffix -> In x (dict_keys (_topology self)).
Proof.
  induction fuel as [|fuel IH]; intros l l'; rewrite order_while_unfold;
    destruct (Nat.ltb (List.length l) (List.length (_topology self)));
    try discriminate;
    try (intros [= <-]; exists []; rewrite app_nil_r; simpl; intuition).
  destruct (order_pass self (dict_keys (_topology self)) l) as [l1|] eqn:E;
    [|discriminate].
  intros H.
  destruct (order_pass_extends _ _ _ E) as [s1 [-> H1]].
  destruct (IH _ _ H) as [s2 [-> H2]].
  exists (s1 ++ s2). rewrite app_assoc. split; [reflexivity|].
  intros x Hx. apply in_app_or in Hx. destruct Hx; auto.
Qed.

Lemma order_while_length (fuel : nat) :
  forall l l',
    order_while fuel self l = Some (Ok l') ->
    List.length (_topology self) <= List.length l'.
Proof.
  induction fuel as [|fuel IH]; intros l l'; rewrite order_while_unfold;
    destruct (Nat.ltb (List.length l) (List.length (_topology self))) eqn:E;
    try discriminate;
    try (intros [= <-]; now apply Nat.ltb_ge in E).
  destruct (order_pass self (dict_keys (_topology self)) l) as [l1|];
    [apply IH | discriminate].
Qed.

(** A container declared under the root sentinel. *)
Variable r : string.
Variable r_spec r_parent : pyval.
Hypothesis r_key : dict_get r (_topology self) = Some r_spec.
Hypothesis r_field : py_getitem r_spec _parent_field = Ok r_parent.
Hypothesis r_root : py_eq_str r_parent (_root_name self) = true.

Lemma order_step_root_child (l l' : list string) :
  order_step self l r = Ok l' -> l' = l ++ [r].
Proof.
  unfold order_step, topology_getitem. simpl. rewrite r_key. simpl.
  rewrite r_field. simpl. rewrite r_root, str_mem_last, andb_false_r.
  congruence.
Qed.

Lemma order_pass_root_child (keys : list string) :
  In r keys ->
  forall l l',
    order_pass self keys l = Ok l' ->
    exists l1 l2, l' = l ++ l1 ++ r :: l2.
Proof.
  induction keys as [|k keys IH]; simpl; [tauto|].
  intros Hin l l' H.
  destruct (order_step self l k) as [la|] eqn:E; simpl in H; [|discriminate].
  destruct (string_dec k r) as [->|Hne].
  - apply order_step_root_child in E. subst la.
    destruct (order_pass_extends _ _ _ H) as [s2 [-> _]].
    exists [], s2. now rewrite <- app_assoc.
  - destruct Hin as [Hin|Hin]; [contradiction|].
    destruct (order_step_extends _ _ _ E) as [s1 [-> _]].
    destruct (IH Hin _ _ H) as [l1 [l2 ->]].
    exists (s1 ++ l1), l2. now rewrite <- !app_assoc.
Qed.

End Ordering.

(** The list returned holds keys of the topology only, at least as many
    entries as the topology has keys, and every container declared under
    the root sentinel. *)
Theorem ordered_list_containers_entries (self : ContainerInput)
    (fuel : nat) (l : list string) :
  ordered_list_containers fuel self = Some (Ok l) ->
  (forall x, In x l -> In x (dict_keys (_topology self)))
  /\ List.length (_topology self) <= List.length l
  /\ (forall c spec parent,
        dict_get c (_topology self) = Some spec ->
        py_getitem spec _parent_field = Ok parent ->
        py_eq_str parent (_root_name self) = true ->
        In c l).
Proof.
  unfold ordered_list_containers. intros H. split; [|split].
  - destruct (order_while_extends self fuel [] l H) as [s [-> Hs]].
    exact Hs.
  - exact (order_while_length self fuel [] l H).
  - intros c spec parent Hc Hf Hr.
    rewrite order_while_unfold in H.
    destruct (Nat.ltb (List.length (@nil string))
                      (List.length (_topology self))) eqn:E.
    + destruct fuel as [|fuel]; [discriminate|].
      destruct (order_pass self (dict_keys (_topology self)) [])
        as [l1|] eqn:Ep; [|discriminate].
      destruct (order_pass_root_child self c spec parent Hc Hf Hr
                  (dict_keys (_topology self))
                  (dict_get_some_key _ _ _ Hc) [] l1 Ep) as [a [b ->]].
      destruct (order_while_extends self fuel _ l H) as [s [-> _]].
      simpl. rewrite <- app_assoc. apply in_or_app. right. now left.
    + apply Nat.ltb_ge in E. destruct (_topology self); [discriminate Hc|].
      simpl in E. lia.
Qed.

Lemma ordered_list_containers_entries_witness :
  (forall x, In x ["A"; "B"; "A"] ->
     In x (dict_keys (_topology child_first_topology)))
  /\ List.length (_topology child_first_topology)
     <= List.length ["A"; "B"; "A"]
  /\ (forall c spec parent,
        dict_get c (_topology child_first_topology) = Some spec ->
        py_getitem spec _parent_field = Ok parent ->
        py_eq_str parent (_root_name child_first_topology) = true ->
        In c ["A"; "B"; "A"]).
Proof.
  apply (ordered_list_containers_entries child_first_topology 2).
  reflexivity.
Defined.

(** *** Parents come first *)

Lemma parents_placed_app (self : ContainerInput) (l : list string) :
  forall seen c,
    parents_placed self seen (l ++ [c])
    = parents_placed self seen l && eligible self (seen ++ l) c.
Proof.
  induction l as [|x l IH]; intros seen c; simpl.
  - now rewrite app_nil_r, andb_true_r.
  - now rewrite IH, <- app_assoc, andb_assoc.
Qed.

Lemma order_step_parents_placed (self : ContainerInput) (l l' : list string)
    (k : string) :
  parents_placed self [] l = true ->
  order_step self l k = Ok l' ->
  parents_placed self [] l' = true.
Proof.
  intros Hinv. unfold order_step.
  destruct (topology_getitem self k) as [spec|] eqn:Es; simpl;
    [|discriminate].
  destruct (py_getitem spec _parent_field) as [q|] eqn:Eq; simpl;
    [|discriminate].
  assert (Hel : forall seen,
             py_eq_str q (_root_name self)
             || existsb (fun element => py_eq_str q element) seen = true ->
             eligible self seen k = true).
  { intros seen H. unfold eligible. now rewrite Es, Eq. }
  destruct (py_eq_str q (_root_name self)) eqn:Er.
  - assert (H1 : parents_placed self [] (l ++ [k]) = true).
    { rewrite parents_placed_app, Hinv. apply Hel. reflexivity. }
    match goal with
    | |- (if ?b then _ else _) = _ -> _ => destruct b
    end; intros [= <-]; [|exact H1].
    rewrite parents_placed_app, H1. apply Hel. reflexivity.
  - destruct (existsb (fun element => py_eq_str q element) l) eqn:Ex;
      simpl.
    + destruct (negb (str_mem k l)); intros [= <-]; [|exact Hinv].
      rewrite parents_placed_app, Hinv. apply Hel. simpl. exact Ex.
    + intros [= <-]. exact Hinv.
Qed.

Lemma order_pass_parents_placed (self : ContainerInput)
    (keys : list string) :
  forall l l',
    parents_placed self [] l = true ->
    order_pass self keys l = Ok l' ->
    parents_placed self [] l' = true.
Proof.
  induction keys as [|k keys IH]; simpl; intros l l' Hinv H.
  - congruence.
  - destruct (order_step self l k) as [l1|] eqn:E; simpl in H;
      [|discriminate].
    eauto using order_step_parents_placed.
Qed.

(** Whatever the topology, every entry of the list returned has the root
    sentinel for parent or comes after an entry that is its parent: a
    container is never listed before its parent has been. *)
Theorem ordered_list_containers_parents_placed (self : ContainerInput)
    (fuel : nat) (l : list string) :
  ordered_list_containers fuel self = Some (Ok l) ->
  parents_placed self [] l = true.
Proof.
  unfold ordered_list_containers.
  assert (H : forall start,
             parents_placed self [] start = true ->
             order_while fuel self start = Some (Ok l) ->
             parents_placed self [] l = true).
  { induction fuel as [|fuel IH]; intros start Hinv;
      rewrite order_while_unfold;
      destruct (Nat.ltb (List.length start) (List.length (_topology self)));
      try discriminate; try congruence.
    destruct (order_pass self (dict_keys (_topology self)) start)
      as [l1|] eqn:E; [|discriminate].
    apply IH. eauto using order_pass_parents_placed. }
  now apply H.
Qed.

Lemma ordered_list_containers_parents_placed_witness :
  parents_placed child_first_topology [] ["A"; "B"; "A"] = true.
Proof.
  apply (ordered_list_containers_parents_placed child_first_topology 2).
  reflexivity.
Defined.

(** *** When the loop ends *)

Section Termination.

Variable self : ContainerInput.

Hypothesis parents_declared :
  forall k s, dict_get k (_topology self) = Some s ->
    exists q, py_getitem s _parent_field = Ok q.

Variable r : string.
Variable r_spec r_parent : pyval.
Hypothesis r_key : dict_get r (_topology self) = Some r_spec.
Hypothesis r_field : py_getitem r_spec _parent_field = Ok r_parent.
Hypothesis r_root : py_eq_str r_parent (_root_name self) = true.

Lemma order_pass_grows (l : list string) :
  exists l',
    order_pass self (dict_keys (_topology self)) l = Ok l'
    /\ List.length l < List.length l'.
Proof.
  destruct (order_pass_returns self parents_declared
              (dict_keys (_topology self)) l) as [l' E]; [auto|].
  exists l'. split; [exact E|].
  destruct (order_pass_root_child self r r_spec r_parent r_key r_field
              r_root _ (dict_get_some_key _ _ _ r_key) l l' E)
    as [a [b ->]].
  rewrite !length_app. simpl. lia.
Qed.

Lemma order_while_ends (fuel : nat) :
  forall l,
    List.length (_topology self) - List.length l <= fuel ->
    exists l', order_while fuel self l = Some (Ok l').
Proof.
  induction fuel as [|fuel IH]; intros l Hfuel; rewrite order_while_unfold;
    destruct (Nat.ltb (List.length l) (List.length (_topology self))) eqn:E;
    eauto.
  - apply Nat.ltb_lt in E. lia.
  - apply Nat.ltb_lt in E.
    destruct (order_pass_grows l) as [l1 [-> Hlen]].
    apply IH. lia.
Qed.

End Termination.

(** With every container declaring a parent, the loop ends when some
    container is declared under the root sentinel, within as many passes
    as the topology has keys; and it never ends when the topology is not
    empty and no container is declared under the root sentinel. *)
Theorem ordered_list_containers_terminates (self : ContainerInput) :
  (forall k s, dict_get k (_topology self) = Some s ->
     exists q, py_getitem s _parent_field = Ok q) ->
  ((exists r spec parent,
      dict_get r (_topology self) = Some spec
      /\ py_getitem spec _parent_field = Ok parent
      /\ py_eq_str parent (_root_name self) = true) ->
   exists l,
     ordered_list_containers (List.length (_topology self)) self
     = Some (Ok l))
  /\ (_topology self <> [] ->
      (forall k s q, dict_get k (_topology self) = Some s ->
         py_getitem s _parent_field = Ok q ->
         py_eq_str q (_root_name self) = false) ->
      forall fuel, ordered_list_containers fuel self = None).
Proof.
  intros Hdecl. split.
  - intros [r [spec [parent [Hk [Hf Hr]]]]].
    apply (order_while_ends self Hdecl r spec parent Hk Hf Hr). simpl. lia.
  - intros Hne Hnoroot fuel.
    assert (Hc : exists c spec, dict_get c (_topology self) = Some spec).
    { destruct (_topology self) as [|[c spec] rest]; [congruence|].
      exists c, spec. simpl. now rewrite String.eqb_refl. }
    destruct Hc as [c [spec Hc]].
    now apply (order_while_stuck self c spec PyNone).
Qed.

Lemma ordered_list_containers_terminates_witness :
  (exists l,
     ordered_list_containers (List.length (_topology dangling_topology))
       dangling_topology = Some (Ok l))
  /\ (forall fuel, ordered_list_containers fuel orphan_topology = None).
Proof.
  assert (Hdecl : forall k s,
             dict_get k (_topology dangling_topology) = Some s ->
             exists q, py_getitem s _parent_field = Ok q).
  { intros k s. cbv [dangling_topology _topology dict_get].
    destruct (String.eqb "A" k); [intros [= <-]; eexists; reflexivity|].
    destruct (String.eqb "B" k); [intros [= <-]; eexists; reflexivity|].
    discriminate. }
  assert (Hdecl' : forall k s,
             dict_get k (_topology orphan_topology) = Some s ->
             exists q, py_getitem s _parent_field = Ok q).
  { intros k s. cbv [orphan_topology _topology dict_get].
    destruct (String.eqb "B" k); [|discriminate].
    intros [= <-]. eexists. reflexivity. }
  split.
  - apply (proj1 (ordered_list_containers_terminates dangling_topology
                    Hdecl)).
    exists "A", (spec_of "Tenant"), (PyStr "Tenant"). repeat split.
  - apply (proj2 (ordered_list_containers_terminates orphan_topology
                    Hdecl')).
    + discriminate.
    + intros k s q. cbv [orphan_topology _topology dict_get].
      destruct (String.eqb "B" k); [|discriminate].
      intros [= <-] [= <-]. reflexivity.
Defined.

(** *** A container without the parent field *)

Lemma order_pass_key_error (self : ContainerInput) (c : string) (d : dict) :
  (forall k s, dict_get k (_topology self) = Some s ->
     exists d', s = PyDict d') ->
  dict_get c (_topology self) = Some (PyDict d) ->
  dict_get _parent_field d = None ->
  forall keys,
    (forall k, In k keys -> In k (dict_keys (_topology self))) ->
    In c keys ->
    forall l, order_pass self keys l = Raise KeyError.
Proof.
  intros Hdict Hc Hd keys. induction keys as [|k keys IH]; [simpl; tauto|].
  intros Hsub Hin l. simpl.
  destruct (dict_get_key k (_topology self)) as [s Hs];
    [apply Hsub; now left|].
  destruct (Hdict k s Hs) as [d' ->].
  assert (Hstep : order_step self l k = Raise KeyError
                  \/ (k <> c /\ exists l', order_step self l k = Ok l')).
  { unfold order_step, topology_getitem. simpl. rewrite Hs. simpl.
    destruct (dict_get _parent_field d') as [q|] eqn:Eq; simpl; [|now left].
    right. split; [intros ->; congruence|].
    match goal with
    | |- exists _, (if ?b then _ else _) = _ => destruct b
    end; eauto. }
  destruct Hstep as [->|[Hne [l' ->]]]; [reflexivity|]. simpl.
  apply IH.
  - intros k' Hk'. apply Hsub. now right.
  - destruct Hin as [Hin|Hin]; [contradiction | exact Hin].
Qed.

(** When the bodies of the containers are dicts and one of them has no
    [parent_container] entry, the ordering raises [KeyError] in its first
    pass. *)
Theorem ordered_list_containers_missing_parent_field
    (self : ContainerInput) (c : string) (d : dict) (extra : nat) :
  (forall k s, dict_get k (_topology self) = Some s ->
     exists d', s = PyDict d') ->
  dict_get c (_topology self) = Some (PyDict d) ->
  dict_get _parent_field d = None ->
  ordered_list_containers (1 + extra) self = Some (Raise KeyError).
Proof.
  intros Hdict Hc Hd. apply order_while_more_fuel.
  unfold ordered_list_containers. rewrite order_while_unfold.
  replace (Nat.ltb (List.length (@nil string))
                   (List.length (_topology self))) with true.
  - rewrite (order_pass_key_error self c d Hdict Hc Hd); auto.
    eapply dict_get_some_key; eassumption.
  - symmetry. apply Nat.ltb_lt. destruct (_topology self);
      [discriminate Hc | simpl; lia].
Qed.

Lemma ordered_list_containers_missing_parent_field_witness :
  ordered_list_containers 1 configlets_free_topology
  = Some (Raise KeyError).
Proof.
  apply (ordered_list_containers_missing_parent_field
           configlets_free_topology "B" [("configlets", PyList [])] 0).
  - intros k s. cbv [configlets_free_topology _topology dict_get].
    destruct (String.eqb "A" k); [intros [= <-]; eexists; reflexivity|].
    destruct (String.eqb "B" k); [intros [= <-]; eexists; reflexivity|].
    discriminate.
  - reflexivity.
  - reflexivity.
Defined.

(** *** One pass or a repeated entry *)

Lemma order_pass_distinct (self : ContainerInput) (keys : list string) :
  forall l l',
    NoDup l -> distinct keys = true -> (forall k, In k keys -> ~ In k l) ->
    order_pass self keys l = Ok l' -> NoDup l'.
Proof.
  induction keys as [|k keys IH]; simpl; intros l l' Hl Hd Hfresh H.
  - congruence.
  - apply andb_true_iff in Hd. destruct Hd as [Hk Hd].
    apply negb_true_iff, str_mem_false in Hk.
    destruct (order_step self l k) as [l1|] eqn:E; simpl in H;
      [|discriminate].
    assert (H1 : l1 = l \/ l1 = l ++ [k]).
    { revert E. unfold order_step.
      destruct (topology_getitem self k) as [spec|]; simpl; [|discriminate].
      destruct (py_getitem spec _parent_field) as [q|]; simpl;
        [|discriminate].
      destruct (py_eq_str q (_root_name self)).
      - rewrite str_mem_last, andb_false_r. intros [= <-]. now right.
      - match goal with
        | |- (if ?b then _ else _) = _ -> _ => destruct b
        end; intros [= <-]; auto. }
    apply (IH l1 l'); [| exact Hd | | exact H].
    + destruct H1 as [->| ->]; [exact Hl|].
      apply NoDup_app; [exact Hl | repeat constructor; simpl; tauto |].
      intros x Hx [Hxk|[]]. subst x. apply (Hfresh k); auto.
    + intros k' Hk' Hin.
      destruct H1 as [->| ->]; [apply (Hfresh k'); auto|].
      apply in_app_or in Hin. destruct Hin as [Hin|[<-|[]]].
      * apply (Hfresh k'); auto.
      * contradiction.
Qed.

(** With distinct keys and a container declared under the root sentinel,
    the list returned is free of repetitions exactly when the first pass
    has placed as many containers as the topology has keys; that list is
    then the result.  A second pass lists the containers under the root
    sentinel again. *)
Theorem ordered_list_containers_one_pass (self : ContainerInput)
    (r : string) (r_spec r_parent : pyval) (first_pass l : list string)
    (fuel : nat) :
  distinct (dict_keys (_topology self)) = true ->
  dict_get r (_topology self) = Some r_spec ->
  py_getitem r_spec _parent_field = Ok r_parent ->
  py_eq_str r_parent (_root_name self) = true ->
  order_pass self (dict_keys (_topology self)) [] = Ok first_pass ->
  ordered_list_containers fuel self = Some (Ok l) ->
  (NoDup l <-> List.length (_topology self) <= List.length first_pass)
  /\ (List.length (_topology self) <= List.length first_pass ->
      l = first_pass)
  /\ (List.length first_pass < List.length (_topology self) ->
      exists a b c, l = a ++ r :: b ++ r :: c).
Proof.
  intros Hd Hr Hf Hroot Hpass. unfold ordered_list_containers.
  rewrite order_while_unfold.
  replace (Nat.ltb (List.length (@nil string))
                   (List.length (_topology self))) with true
    by (symmetry; apply Nat.ltb_lt; destruct (_topology self);
        [discriminate Hr | simpl; lia]).
  destruct fuel as [|fuel]; [discriminate|]. rewrite Hpass.
  intros H.
  assert (Hone : List.length (_topology self) <= List.length first_pass ->
                 l = first_pass).
  { intros Hlen. rewrite order_while_unfold in H.
    apply Nat.ltb_ge in Hlen. rewrite Hlen in H. congruence. }
  assert (Htwo : List.length first_pass < List.length (_topology self) ->
                 exists a b c, l = a ++ r :: b ++ r :: c).
  { intros Hlen. rewrite order_while_unfold in H.
    apply Nat.ltb_lt in Hlen. rewrite Hlen in H.
    destruct fuel as [|fuel]; [discriminate|].
    destruct (order_pass self (dict_keys (_topology self)) first_pass)
      as [l2|] eqn:E2; [|discriminate].
    destruct (order_pass_root_child self r r_spec r_parent Hr Hf Hroot _
                (dict_get_some_key _ _ _ Hr) [] first_pass Hpass)
      as [a [b E1]].
    destruct (order_pass_root_child self r r_spec r_parent Hr Hf Hroot _
                (dict_get_some_key _ _ _ Hr) first_pass l2 E2)
      as [a' [b' ->]].
    destruct (order_while_extends self fuel _ l H) as [s [-> _]].
    simpl in E1. subst first_pass.
    exists a, (b ++ a'), (b' ++ s). now rewrite <- !app_assoc. }
  split; [split|split; assumption].
  - intros Hnd.
    destruct (Nat.le_gt_cases (List.length (_topology self))
                (List.length first_pass)) as [Hle|Hlt]; [exact Hle|].
    destruct (Htwo Hlt) as [a [b [c ->]]]. exfalso.
    apply NoDup_remove_2 in Hnd. apply Hnd.
    apply in_or_app. right. apply in_or_app. right. now left.
  - intros Hle. rewrite (Hone Hle).
    apply (order_pass_distinct self (dict_keys (_topology self)) []
             first_pass); auto.
    constructor.
Qed.

Lemma ordered_list_containers_one_pass_witness :
  (NoDup ["A"; "B"; "A"]
   <-> List.length (_topology child_first_topology) <= List.length ["A"])
  /\ (List.length (_topology child_first_topology) <= List.length ["A"] ->
      ["A"; "B"; "A"] = ["A"])
  /\ (List.length ["A"] < List.length (_topology child_first_topology) ->
      exists a b c, ["A"; "B"; "A"] = a ++ "A" :: b ++ "A" :: c).
Proof.
  apply (ordered_list_containers_one_pass child_first_topology "A"
           (spec_of "Tenant") (PyStr "Tenant") ["A"] ["A"; "B"; "A"] 2);
    reflexivity.
Defined.

(** ** The getters of [ContainerInput] *)

(** For a container whose body is a dict the getters never raise:
    [_get_container_data] gives the entry of the body under the key, and
    [None] when the body has no such entry, and [has_configlets] tells
    whether the entry is there and is not [None]. *)
Theorem get_container_data_of_dict_body (self : ContainerInput)
    (container_name key_name : string) (body : dict) :
  dict_get container_name (_topology self) = Some (PyDict body) ->
  _get_container_data self container_name key_name
  = Ok (match dict_get key_name body with
        | Some v => v
        | None => PyNone
        end)
  /\ get_parent self container_name key_name
     = get_configlets self container_name key_name
  /\ has_configlets self container_name key_name
     = Ok (match dict_get key_name body with
           | Some v => negb (is_none v)
           | None => false
           end).
Proof.
  intros H.
  assert (E : _get_container_data self container_name key_name
              = Ok (match dict_get key_name body with
                    | Some v => v
                    | None => PyNone
                    end)).
  { unfold _get_container_data, topology_getitem, dict_mem. simpl.
    rewrite H. simpl. unfold dict_mem.
    now destruct (dict_get key_name body). }
  split; [exact E | split; [reflexivity|]].
  unfold has_configlets. rewrite E. simpl.
  destruct (dict_get key_name body) as [v|]; [|reflexivity].
  now destruct v.
Qed.

Lemma get_container_data_of_dict_body_witness :
  _get_container_data configlets_topology "B" "configlets"
  = Ok (PyList [PyStr "ALIASES"])
  /\ get_parent configlets_topology "B" "configlets"
     = get_configlets configlets_topology "B" "configlets"
  /\ has_configlets configlets_topology "B" "configlets" = Ok true.
Proof.
  apply (get_container_data_of_dict_body configlets_topology "B"
           "configlets"
           [(_parent_field, PyStr "A");
            ("configlets", PyList [PyStr "ALIASES"])]).
  reflexivity.
Defined.

(** A container declared with no body, that is with [None] for body,
    makes the three getters raise [TypeError], for every key asked. *)
Theorem get_container_data_of_empty_body (self : ContainerInput)
    (container_name key_name : string) :
  dict_get container_name (_topology self) = Some PyNone ->
  get_parent self container_name key_name = Raise TypeError
  /\ get_configlets self container_name key_name = Raise TypeError
  /\ has_configlets self container_name key_name = Raise TypeError.
Proof.
  intros H.
  assert (E : _get_container_data self container_name key_name
              = Raise TypeError).
  { unfold _get_container_data, topology_getitem, dict_mem. simpl.
    now rewrite H. }
  unfold get_parent, get_configlets, has_configlets. now rewrite E.
Qed.

Lemma get_container_data_of_empty_body_witness :
  get_parent empty_body_topology "B" "parent_container" = Raise TypeError
  /\ get_configlets empty_body_topology "B" "parent_container"
     = Raise TypeError
  /\ has_configlets empty_body_topology "B" "parent_container"
     = Raise TypeError.
Proof.
  apply (get_container_data_of_empty_body empty_body_topology "B"
           "parent_container").
  reflexivity.
Defined.

(** ** [_standard_output] *)

Lemma filter_filter {A} (f : A -> bool) (l : list A) :
  filter f (filter f l) = filter f l.
Proof.
  induction l as [|x l IH]; [reflexivity|]. simpl.
  destruct (f x) eqn:E; simpl; [rewrite E|]; congruence.
Qed.

Lemma dict_get_not_standard (k : string) (d : dict) :
  ~ In k standard_keys ->
  dict_get k (filter (fun kv => str_mem (fst kv) standard_keys) d) = None.
Proof.
  intros Hk. induction d as [|[k' v] d IH]; [reflexivity|].
  cbn [filter fst].
  destruct (str_mem k' standard_keys) eqn:E; [|exact IH].
  cbn [dict_get]. destruct (String.eqb k' k) eqn:Ek; [|exact IH].
  apply String.eqb_eq in Ek. subst k'. apply str_mem_In in E.
  contradiction.
Qed.

(** What [_standard_output] returns is kept as it is by a second
    application; it has the entries of the source under the five standard
    keys and no entry under any other key. *)
Theorem standard_output_idempotent (source out : pyval) :
  _standard_output source = Ok out ->
  _standard_output out = Ok out
  /\ (forall k, In k standard_keys -> py_getitem out k = py_getitem source k)
  /\ (forall k, ~ In k standard_keys -> py_contains k out = Ok false).
Proof.
  destruct source; try discriminate. simpl. intros [= <-].
  split; [|split].
  - simpl. now rewrite filter_filter.
  - intros k Hk. now apply py_getitem_standard.
  - intros k Hk. unfold py_contains, dict_mem.
    now rewrite dict_get_not_standard.
Qed.

Lemma standard_output_idempotent_witness :
  let out :=
    PyDict [(FIELD_KEY, PyStr "configlet_1"); (FIELD_NAME, PyStr "ALIASES")] in
  _standard_output out = Ok out
  /\ (forall k, In k standard_keys ->
        py_getitem out k
        = py_getitem (configlet_record "configlet_1" "ALIASES") k)
  /\ (forall k, ~ In k standard_keys -> py_contains k out = Ok false).
Proof.
  apply (standard_output_idempotent
           (configlet_record "configlet_1" "ALIASES")).
  reflexivity.
Defined.

(** ** Emptiness and deletion *)

Section Deletion.

Context {R : Type}.
Variable client : api_call -> R -> result pyval * R.
Variable container : string.

(** In the state [s], the registry holds a record [d] for the container,
    with the key [container_id], and answers [topology] to the topology
    filter on that key, with the facts [facts]; these lookups leave the
    registry in the state [s]. *)
Variable s : R.
Variable d facts : dict.
Variable container_id topology : pyval.

Hypothesis lookup :
  client (api_get_container_by_name container) s = (Ok (PyDict d), s).
Hypothesis lookup_key : dict_get FIELD_KEY d = Some container_id.
Hypothesis topology_filter :
  client (api_filter_topology container_id) s = (Ok topology, s).
Hypothesis filter_facts :
  py_getitem topology FIELD_TOPOLOGY = Ok (PyDict facts).

Lemma is_empty_run (w : world R) :
  remote w = s ->
  is_empty client container w
  = (Ok (counts_empty facts),
     mkWorld s
       (calls w ++ [api_get_container_by_name container;
                    api_get_container_by_name container;
                    api_filter_topology container_id])).
Proof.
  intros Hw. unfold is_empty, counts_empty.
  rewrite (bind_run _ _ _ _ _
             (get_container_info_found client container s d facts
                container_id topology lookup lookup_key topology_filter
                filter_facts w Hw)).
  rewrite bind_lift, (py_contains_standard _ _ count_containers_standard).
  unfold dict_mem at 1.
  destruct (dict_get FIELD_COUNT_CONTAINERS facts) as [v|] eqn:Ev;
    [|now rewrite bind_lift].
  rewrite bind_lift, (py_contains_standard _ _ count_devices_standard).
  unfold dict_mem at 1.
  destruct (dict_get FIELD_COUNT_DEVICES facts) as [v'|] eqn:Ev';
    [|reflexivity].
  rewrite bind_lift, (py_getitem_standard _ _ count_containers_standard).
  unfold py_getitem at 1. rewrite Ev.
  destruct (py_eq_int v 0); [|reflexivity].
  rewrite bind_lift, (py_getitem_standard _ _ count_devices_standard).
  unfold py_getitem at 1. rewrite Ev'.
  now destruct (py_eq_int v' 0).
Qed.

Lemma get_container_id_run (cname : string) (record : dict) (key : pyval)
    (w : world R) (s' : R) :
  client (api_get_container_by_name cname) (remote w)
  = (Ok (PyDict record), s') ->
  dict_get FIELD_KEY record = Some key ->
  get_container_id client cname w
  = (Ok key, mkWorld s' (calls w ++ [api_get_container_by_name cname])).
Proof.
  intros H Hk. unfold get_container_id.
  rewrite (bind_run _ _ _ _ _ (api_run client _ _ _ _ H)).
  rewrite bind_lift. cbn [py_contains]. unfold dict_mem. rewrite Hk.
  unfold lift. cbn [py_getitem]. now rewrite Hk.
Qed.

Lemma get_container_id_missing (cname : string) (w : world R) (s' : R) :
  client (api_get_container_by_name cname) (remote w) = (Ok PyNone, s') ->
  get_container_id client cname w
  = (Raise TypeError,
     mkWorld s' (calls w ++ [api_get_container_by_name cname])).
Proof.
  intros H. unfold get_container_id.
  rewrite (bind_run _ _ _ _ _ (api_run client _ _ _ _ H)).
  now rewrite bind_lift.
Qed.

End Deletion.

(** [is_empty] answers true exactly when the facts of the container hold
    the two counters and both equal zero; facts without one of the
    counters make it answer false.  It costs the three lookups of
    [get_container_info]. *)
Theorem is_empty_iff_counts_zero {R : Type}
    (client : api_call -> R -> result pyval * R) (container : string)
    (w : world R) (d facts : dict) (container_id topology : pyval) :
  client (api_get_container_by_name container) (remote w)
  = (Ok (PyDict d), remote w) ->
  dict_get FIELD_KEY d = Some container_id ->
  client (api_filter_topology container_id) (remote w)
  = (Ok topology, remote w) ->
  py_getitem topology FIELD_TOPOLOGY = Ok (PyDict facts) ->
  is_empty client container w
  = (Ok (counts_empty facts),
     mkWorld (remote w)
       (calls w ++ [api_get_container_by_name container;
                    api_get_container_by_name container;
                    api_filter_topology container_id])).
Proof.
  intros Hl Hk Hf Hfacts.
  now apply (is_empty_run client container (remote w) d facts container_id
               topology).
Qed.

Lemma is_empty_iff_counts_zero_witness :
  is_empty registry_client "DC1" demo_world
  = (Ok true,
     mkWorld demo_registry
       [api_get_container_by_name "DC1"; api_get_container_by_name "DC1";
        api_filter_topology (PyStr "container_1")])
  /\ is_empty registry_client "Tenant" demo_world
     = (Ok false,
        mkWorld demo_registry
          [api_get_container_by_name "Tenant";
           api_get_container_by_name "Tenant";
           api_filter_topology (PyStr "root")]).
Proof.
  split.
  - exact (is_empty_iff_counts_zero registry_client "DC1" demo_world
             (record_fields
                (container_record "container_1" "DC1" (PyStr "root") 0 0))
             (record_fields
                (container_record "container_1" "DC1" (PyStr "root") 0 0))
             (PyStr "container_1")
             (PyDict [(FIELD_TOPOLOGY,
                       container_record "container_1" "DC1" (PyStr "root")
                         0 0)])
             eq_refl eq_refl eq_refl eq_refl).
  - exact (is_empty_iff_counts_zero registry_client "Tenant" demo_world
             (record_fields (container_record "root" "Tenant" PyNone 2 0))
             (record_fields (container_record "root" "Tenant" PyNone 2 0))
             (PyStr "root")
             (PyDict [(FIELD_TOPOLOGY,
                       container_record "root" "Tenant" PyNone 2 0)])
             eq_refl eq_refl eq_refl eq_refl).
Defined.

(** [get_container_id] returns the key of the record the registry holds,
    and [None] for a record without a key; for a name the registry does
    not know, where the lookup answers [None], its membership test raises
    [TypeError]. *)
Theorem get_container_id_cases {R : Type}
    (client : api_call -> R -> result pyval * R) (container_name : string)
    (w : world R) (answer : pyval) (s : R) :
  client (api_get_container_by_name container_name) (remote w)
  = (Ok answer, s) ->
  let w' :=
    mkWorld s (calls w ++ [api_get_container_by_name container_name]) in
  (forall record,
     answer = PyDict record ->
     get_container_id client container_name w
     = (Ok (match dict_get FIELD_KEY record with
            | Some key => key
            | None => PyNone
            end), w'))
  /\ (answer = PyNone ->
      get_container_id client container_name w = (Raise TypeError, w')).
Proof.
  intros H w'. split.
  - intros record ->. unfold get_container_id.
    rewrite (bind_run _ _ _ _ _ (api_run client _ _ _ _ H)).
    rewrite bind_lift. cbn [py_contains]. unfold dict_mem, lift.
    cbn [py_getitem].
    now destruct (dict_get FIELD_KEY record).
  - intros ->. now apply get_container_id_missing.
Qed.

Lemma get_container_id_cases_witness :
  get_container_id registry_client "DC1" demo_world
  = (Ok (PyStr "container_1"),
     mkWorld demo_registry [api_get_container_by_name "DC1"])
  /\ get_container_id registry_client "DC9" demo_world
     = (Raise TypeError,
        mkWorld demo_registry [api_get_container_by_name "DC9"]).
Proof.
  split.
  - exact (proj1 (get_container_id_cases registry_client "DC1" demo_world
                    _ demo_registry eq_refl)
             (record_fields
                (container_record "container_1" "DC1" (PyStr "root") 0 0))
             eq_refl).
  - exact (proj2 (get_container_id_cases registry_client "DC9" demo_world
                    _ demo_registry eq_refl) eq_refl).
Defined.

Section DeleteEmpty.

Context {R : Type}.
Variable client : api_call -> R -> result pyval * R.
Variable check_mode : bool.
Variable container parent : string.
Variable w : world R.
Variable d facts : dict.
Variable container_id topology : pyval.

Hypothesis lookup :
  client (api_get_container_by_name container) (remote w)
  = (Ok (PyDict d), remote w).
Hypothesis lookup_key : dict_get FIELD_KEY d = Some container_id.
Hypothesis topology_filter :
  client (api_filter_topology container_id) (remote w)
  = (Ok topology, remote w).
Hypothesis filter_facts :
  py_getitem topology FIELD_TOPOLOGY = Ok (PyDict facts).
Hypothesis empty : counts_empty facts = true.

Lemma delete_container_tests_pass :
  delete_container client check_mode container parent w
  = bind (get_container_id client parent)
      (fun parent_id =>
         bind (get_container_id client container)
           (fun container_id =>
              if check_mode
              then ret (set_success true (new_CvApiResult container))
              else
                try_except_CvpApiError
                  (api client
                     (api_delete_container container container_id
                        parent_id parent))
                  (ret (new_CvApiResult container))
                  (fun resp =>
                     bind (lift (container_response resp))
                       (fun status =>
                          match status with
                          | Some t =>
                              ret (set_success true
                                     (set_taskIds t
                                        (new_CvApiResult container)))
                          | None => ret (new_CvApiResult container)
                          end))))
      (mkWorld (remote w)
         (calls w ++ deletion_tests container container_id)).
Proof.
  unfold delete_container at 1.
  rewrite (bind_run _ _ _ _ _
             (is_container_exists_found client container (remote w) d
                lookup w eq_refl)).
  erewrite bind_run
    by (apply (is_empty_run client container (remote w) d facts
                 container_id topology lookup lookup_key topology_filter
                 filter_facts); reflexivity).
  rewrite empty. cbn [calls]. now rewrite <- app_assoc.
Qed.

End DeleteEmpty.

(** When the container is in the registry and empty and the parent named
    is not in the registry, [delete_container] raises the [TypeError] of
    [get_container_id], in check mode as out of it, and no deletion is
    sent. *)
Theorem delete_container_parent_missing {R : Type}
    (client : api_call -> R -> result pyval * R) (check_mode : bool)
    (container parent : string) (w : world R)
    (d facts : dict) (container_id topology : pyval) (s : R) :
  client (api_get_container_by_name container) (remote w)
  = (Ok (PyDict d), remote w) ->
  dict_get FIELD_KEY d = Some container_id ->
  client (api_filter_topology container_id) (remote w)
  = (Ok topology, remote w) ->
  py_getitem topology FIELD_TOPOLOGY = Ok (PyDict facts) ->
  counts_empty facts = true ->
  client (api_get_container_by_name parent) (remote w) = (Ok PyNone, s) ->
  delete_container client check_mode container parent w
  = (Raise TypeError,
     mkWorld s
       (calls w ++ deletion_tests container container_id
        ++ [api_get_container_by_name parent])).
Proof.
  intros Hl Hk Hf Hfacts Hempty Hparent.
  rewrite (delete_container_tests_pass client check_mode container parent w
             d facts container_id topology Hl Hk Hf Hfacts Hempty).
  erewrite bind_raise
    by (apply get_container_id_missing; exact Hparent).
  cbn [calls]. now rewrite <- app_assoc.
Qed.

Lemma delete_container_parent_missing_witness :
  delete_container registry_client false "DC1" "DC9" demo_world
  = (Raise TypeError,
     mkWorld demo_registry
       [api_get_container_by_name "DC1"; api_get_container_by_name "DC1";
        api_get_container_by_name "DC1";
        api_filter_topology (PyStr "container_1");
        api_get_container_by_name "DC9"]).
Proof.
  exact (delete_container_parent_missing registry_client false "DC1" "DC9"
           demo_world
           (record_fields
              (container_record "container_1" "DC1" (PyStr "root") 0 0))
           (record_fields
              (container_record "container_1" "DC1" (PyStr "root") 0 0))
           (PyStr "container_1")
           (PyDict [(FIELD_TOPOLOGY,
                     container_record "container_1" "DC1" (PyStr "root")
                       0 0)])
           demo_registry eq_refl eq_refl eq_refl eq_refl eq_refl eq_refl).
Defined.

(** The deletion of a container that is in the registry and empty, under
    a parent that is in the registry.  In check mode success is reported
    after the lookups.  Out of check mode one deletion is sent, with the
    keys of the container and of the parent: the success that the
    registry answers is reported with its tasks, and a registry error is
    caught and leaves the result unsuccessful. *)
Theorem delete_container_of_empty_container {R : Type}
    (client : api_call -> R -> result pyval * R)
    (container parent : string) (w : world R)
    (d facts pd : dict) (container_id topology parent_id : pyval) :
  client (api_get_container_by_name container) (remote w)
  = (Ok (PyDict d), remote w) ->
  dict_get FIELD_KEY d = Some container_id ->
  client (api_filter_topology container_id) (remote w)
  = (Ok topology, remote w) ->
  py_getitem topology FIELD_TOPOLOGY = Ok (PyDict facts) ->
  counts_empty facts = true ->
  client (api_get_container_by_name parent) (remote w)
  = (Ok (PyDict pd), remote w) ->
  dict_get FIELD_KEY pd = Some parent_id ->
  let lookups :=
    deletion_tests container container_id
    ++ [api_get_container_by_name parent;
        api_get_container_by_name container] in
  let deletion :=
    api_delete_container container container_id parent_id parent in
  delete_container client true container parent w
  = (Ok (set_success true (new_CvApiResult container)),
     mkWorld (remote w) (calls w ++ lookups))
  /\ (forall resp data tasks s,
        client deletion (remote w) = (Ok resp, s) ->
        py_getitem resp "data" = Ok data ->
        py_getitem data "status" = Ok (PyStr "success") ->
        py_getitem data "taskIds" = Ok tasks ->
        delete_container client false container parent w
        = (Ok (set_success true
                 (set_taskIds tasks (new_CvApiResult container))),
           mkWorld s (calls w ++ lookups ++ [deletion])))
  /\ (forall s,
        client deletion (remote w) = (Raise CvpApiError, s) ->
        delete_container client false container parent w
        = (Ok (new_CvApiResult container),
           mkWorld s (calls w ++ lookups ++ [deletion]))).
Proof.
  intros Hl Hk Hf Hfacts Hempty Hparent Hpk lookups deletion.
  assert (Hids : forall check_mode,
    delete_container client check_mode container parent w
    = (if check_mode
       then ret (set_success true (new_CvApiResult container))
       else
         try_except_CvpApiError
           (api client deletion)
           (ret (new_CvApiResult container))
           (fun resp =>
              bind (lift (container_response resp))
                (fun status =>
                   match status with
                   | Some t =>
                       ret (set_success true
                              (set_taskIds t (new_CvApiResult container)))
                   | None => ret (new_CvApiResult container)
                   end)))
        (mkWorld (remote w) (calls w ++ lookups))).
  { intros check_mode.
    rewrite (delete_container_tests_pass client check_mode container parent
               w d facts container_id topology Hl Hk Hf Hfacts Hempty).
    erewrite bind_run
      by (apply (get_container_id_run client parent pd parent_id);
          [exact Hparent | exact Hpk]).
    erewrite bind_run
      by (apply (get_container_id_run client container d container_id);
          [exact Hl | exact Hk]).
    cbn [calls]. unfold lookups. now rewrite <- !app_assoc. }
  split; [|split].
  - now rewrite Hids.
  - intros resp data tasks s Hcall Hdata Hstatus Htasks. rewrite Hids.
    erewrite try_run by (apply api_run; exact Hcall).
    rewrite bind_lift. unfold container_response.
    rewrite Hdata. cbn [rbind]. rewrite Hstatus. cbn [rbind py_eq_str].
    rewrite String.eqb_refl. cbn [rbind]. rewrite Htasks.
    cbn [rbind calls]. unfold ret. now rewrite <- !app_assoc.
  - intros s Hcall. rewrite Hids. unfold try_except_CvpApiError.
    rewrite (api_run client deletion
               (mkWorld (remote w) (calls w ++ lookups)) _ _ Hcall).
    unfold ret. cbn [calls]. now rewrite <- !app_assoc.
Qed.

Lemma delete_container_of_empty_container_witness :
  delete_container registry_client true "DC1" "Tenant" demo_world
  = (Ok (set_success true (new_CvApiResult "DC1")),
     mkWorld demo_registry
       (deletion_tests "DC1" (PyStr "container_1")
        ++ [api_get_container_by_name "Tenant";
            api_get_container_by_name "DC1"]))
  /\ fst (delete_container registry_client false "DC1" "Tenant" demo_world)
     = Ok (set_success true
             (set_taskIds (PyList []) (new_CvApiResult "DC1")))
  /\ delete_container readonly_client false "DC1" "Tenant" demo_world
     = (Ok (new_CvApiResult "DC1"),
        mkWorld demo_registry
          (deletion_tests "DC1" (PyStr "container_1")
           ++ [api_get_container_by_name "Tenant";
               api_get_container_by_name "DC1";
               api_delete_container "DC1" (PyStr "container_1")
                 (PyStr "root") "Tenant"])).
Proof.
  pose (dc1 := container_record "container_1" "DC1" (PyStr "root") 0 0).
  pose (tenant := container_record "root" "Tenant" PyNone 2 0).
  destruct (delete_container_of_empty_container registry_client "DC1"
              "Tenant" demo_world (record_fields dc1) (record_fields dc1)
              (record_fields tenant) (PyStr "container_1")
              (PyDict [(FIELD_TOPOLOGY, dc1)]) (PyStr "root")
              eq_refl eq_refl eq_refl eq_refl eq_refl eq_refl eq_refl)
    as [H1 [H2 _]].
  destruct (delete_container_of_empty_container readonly_client "DC1"
              "Tenant" demo_world (record_fields dc1) (record_fields dc1)
              (record_fields tenant) (PyStr "container_1")
              (PyDict [(FIELD_TOPOLOGY, dc1)]) (PyStr "root")
              eq_refl eq_refl eq_refl eq_refl eq_refl eq_refl eq_refl)
    as [_ [_ H3]].
  split; [exact H1 | split].
  - erewrite H2; reflexivity.
  - exact (H3 demo_registry eq_refl).
Defined.

(** ** Creation *)

Lemma is_container_exists_answer {R : Type}
    (client : api_call -> R -> result pyval * R) (container_name : string)
    (w : world R) (answer : pyval) (s : R) :
  client (api_get_container_by_name container_name) (remote w)
  = (Ok answer, s) ->
  is_container_exists client container_name w
  = (Ok (negb (is_none answer)),
     mkWorld s (calls w ++ [api_get_container_by_name container_name])).
Proof.
  intros H. unfold is_container_exists.
  rewrite (try_run _ _ _ _ _ _ (api_run client _ _ _ _ H)).
  now destruct (negb (is_none answer)).
Qed.

(** When the registry does not know the parent, [create_container]
    returns the result it started from after the single lookup of the
    parent: nothing is created, in check mode as out of it. *)
Theorem create_container_parent_missing {R : Type}
    (client : api_call -> R -> result pyval * R) (check_mode : bool)
    (container parent : string) (w : world R) (s : R) :
  client (api_get_container_by_name parent) (remote w) = (Ok PyNone, s) ->
  create_container client check_mode container parent w
  = (Ok (new_CvApiResult container),
     mkWorld s (calls w ++ [api_get_container_by_name parent])).
Proof.
  intros H. unfold create_container.
  now rewrite (bind_run _ _ _ _ _
                 (is_container_exists_missing client parent w s H)).
Qed.

Lemma create_container_parent_missing_witness :
  create_container registry_client false "DC3" "DC9" demo_world
  = (Ok (new_CvApiResult "DC3"),
     mkWorld demo_registry [api_get_container_by_name "DC9"]).
Proof.
  exact (create_container_parent_missing registry_client false "DC3" "DC9"
           demo_world demo_registry eq_refl).
Defined.

(** When the registry already holds the container, [create_container]
    returns the result it started from after three lookups: nothing is
    created, in check mode as out of it. *)
Theorem create_container_existing {R : Type}
    (client : api_call -> R -> result pyval * R) (check_mode : bool)
    (container parent : string) (w : world R)
    (pd : dict) (parent_id answer : pyval) :
  client (api_get_container_by_name parent) (remote w)
  = (Ok (PyDict pd), remote w) ->
  dict_get FIELD_KEY pd = Some parent_id ->
  client (api_get_container_by_name container) (remote w)
  = (Ok answer, remote w) ->
  answer <> PyNone ->
  create_container client check_mode container parent w
  = (Ok (new_CvApiResult container),
     mkWorld (remote w)
       (calls w ++ [api_get_container_by_name parent;
                    api_get_container_by_name parent;
                    api_get_container_by_name container])).
Proof.
  intros Hparent Hkey Hc Hsome. unfold create_container.
  rewrite (bind_run _ _ _ _ _
             (is_container_exists_found client parent (remote w) pd
                Hparent w eq_refl)).
  erewrite bind_run by (apply api_run; exact Hparent).
  rewrite bind_lift. cbn [py_getitem]. rewrite Hkey.
  erewrite bind_run by (apply is_container_exists_answer; exact Hc).
  destruct answer; try congruence; unfold ret; cbn;
    now rewrite <- !app_assoc.
Qed.

Lemma create_container_existing_witness :
  create_container registry_client false "DC1" "Tenant" demo_world
  = (Ok (new_CvApiResult "DC1"),
     mkWorld demo_registry
       [api_get_container_by_name "Tenant";
        api_get_container_by_name "Tenant";
        api_get_container_by_name "DC1"]).
Proof.
  apply (create_container_existing registry_client false "DC1" "Tenant"
           demo_world
           (record_fields (container_record "root" "Tenant" PyNone 2 0))
           (PyStr "root")
           (container_record "container_1" "DC1" (PyStr "root") 0 0)
           eq_refl eq_refl eq_refl).
  discriminate.
Defined.

(** The creation, out of check mode, of a container that the registry
    does not hold under a parent that it holds: one creation is sent,
    with the key and the name of the parent.  The success that the
    registry answers is reported with its tasks and a count of one; any
    other status, and a registry error, which is caught, leave the result
    as it started. *)
Theorem create_container_new {R : Type}
    (client : api_call -> R -> result pyval * R)
    (container parent : string) (w : world R)
    (pd : dict) (parent_id : pyval) :
  client (api_get_container_by_name parent) (remote w)
  = (Ok (PyDict pd), remote w) ->
  dict_get FIELD_KEY pd = Some parent_id ->
  client (api_get_container_by_name container) (remote w)
  = (Ok PyNone, remote w) ->
  let creation := api_add_container container parent_id parent in
  let recorded :=
    calls w ++ [api_get_container_by_name parent;
                api_get_container_by_name parent;
                api_get_container_by_name container;
                creation] in
  (forall resp data status s,
     client creation (remote w) = (Ok resp, s) ->
     py_getitem resp "data" = Ok data ->
     py_getitem data "status" = Ok status ->
     (forall tasks,
        py_eq_str status "success" = true ->
        py_getitem data "taskIds" = Ok tasks ->
        exists res,
          create_container client false container parent w
          = (Ok res, mkWorld s recorded)
          /\ success res = true /\ taskIds res = tasks
          /\ count res = 1%Z /\ name res = container)
     /\ (py_eq_str status "success" = false ->
         create_container client false container parent w
         = (Ok (new_CvApiResult container), mkWorld s recorded)))
  /\ (forall s,
        client creation (remote w) = (Raise CvpApiError, s) ->
        create_container client false container parent w
        = (Ok (new_CvApiResult container), mkWorld s recorded)).
Proof.
  intros Hparent Hkey Hc creation recorded.
  assert (Hrun :
    create_container client false container parent w
    = try_except_CvpApiError
        (api client creation)
        (ret (new_CvApiResult container))
        (fun resp =>
           bind (lift (container_response resp))
             (fun status =>
                match status with
                | Some t =>
                    ret (set_count
                           (count (set_success true
                                     (set_taskIds t
                                        (new_CvApiResult container))) + 1)
                           (set_success true
                              (set_taskIds t (new_CvApiResult container))))
                | None => ret (new_CvApiResult container)
                end))
        (mkWorld (remote w)
           (calls w ++ [api_get_container_by_name parent;
                        api_get_container_by_name parent;
                        api_get_container_by_name container]))).
  { unfold create_container.
    rewrite (bind_run _ _ _ _ _
               (is_container_exists_found client parent (remote w) pd
                  Hparent w eq_refl)).
    erewrite bind_run by (apply api_run; exact Hparent).
    rewrite bind_lift. cbn [py_getitem]. rewrite Hkey.
    erewrite bind_run by (apply is_container_exists_missing; exact Hc).
    cbn [negb calls]. now rewrite <- !app_assoc. }
  assert (Hrec : forall s : R,
    mkWorld s
      ((calls w ++ [api_get_container_by_name parent;
                    api_get_container_by_name parent;
                    api_get_container_by_name container]) ++ [creation])
    = mkWorld s recorded).
  { intros s. unfold recorded. now rewrite <- app_assoc. }
  split.
  - intros resp data status s Hcall Hdata Hstatus.
    assert (Hstep :
      create_container client false container parent w
      = bind (lift (container_response resp))
          (fun status =>
             match status with
             | Some t =>
                 ret (set_count
                        (count (set_success true
                                  (set_taskIds t
                                     (new_CvApiResult container))) + 1)
                        (set_success true
                           (set_taskIds t (new_CvApiResult container))))
             | None => ret (new_CvApiResult container)
             end)
          (mkWorld s recorded)).
    { rewrite Hrun. erewrite try_run by (apply api_run; exact Hcall).
      cbn [calls]. now rewrite Hrec. }
    rewrite Hstep, bind_lift. unfold container_response.
    rewrite Hdata. cbn [rbind]. rewrite Hstatus. cbn [rbind].
    split.
    + intros tasks Hsuccess Htasks. rewrite Hsuccess, Htasks. cbn [rbind].
      eexists. split; [reflexivity|]. repeat split.
    + intros Hother. now rewrite Hother.
  - intros s Hcall. rewrite Hrun. unfold try_except_CvpApiError.
    rewrite (api_run client creation
               (mkWorld (remote w)
                  (calls w ++ [api_get_container_by_name parent;
                               api_get_container_by_name parent;
                               api_get_container_by_name container]))
               _ _ Hcall).
    cbn [calls]. unfold ret. now rewrite Hrec.
Qed.

Lemma create_container_new_witness :
  (exists res,
     create_container registry_client false "DC3" "Tenant" demo_world
     = (Ok res,
        mkWorld
          (snd (registry_client
                  (api_add_container "DC3" (PyStr "root") "Tenant")
                  demo_registry))
          [api_get_container_by_name "Tenant";
           api_get_container_by_name "Tenant";
           api_get_container_by_name "DC3";
           api_add_container "DC3" (PyStr "root") "Tenant"])
     /\ success res = true /\ taskIds res = PyList []
     /\ count res = 1%Z /\ name res = "DC3")
  /\ create_container readonly_client false "DC3" "Tenant" demo_world
     = (Ok (new_CvApiResult "DC3"),
        mkWorld demo_registry
          [api_get_container_by_name "Tenant";
           api_get_container_by_name "Tenant";
           api_get_container_by_name "DC3";
           api_add_container "DC3" (PyStr "root") "Tenant"]).
Proof.
  pose (tenant := container_record "root" "Tenant" PyNone 2 0).
  split.
  - destruct (create_container_new registry_client "DC3" "Tenant" demo_world
                (record_fields tenant) (PyStr "root")
                eq_refl eq_refl eq_refl) as [H _].
    destruct (H (success_response (PyList []))
                (PyDict [("status", PyStr "success");
                         ("taskIds", PyList [])])
                (PyStr "success") _ eq_refl eq_refl eq_refl) as [H1 _].
    exact (H1 (PyList []) eq_refl eq_refl).
  - destruct (create_container_new readonly_client "DC3" "Tenant" demo_world
                (record_fields tenant) (PyStr "root")
                eq_refl eq_refl eq_refl) as [_ H].
    exact (H demo_registry eq_refl).
Defined.

(** ** Success and the calls sent *)

(** Out of check mode, [create_container] reports success only after it
    has sent the creation to the registry, and with a count of one; the
    registry has then received that call last. *)
Theorem create_container_success_sent {R : Type}
    (client : api_call -> R -> result pyval * R)
    (container parent : string) (w w' : world R) (res : CvApiResult) :
  create_container client false container parent w = (Ok res, w') ->
  success res = true ->
  count res = 1%Z
  /\ exists parent_id before,
       calls w' = before ++ [api_add_container container parent_id parent].
Proof.
  intros H Hs. unfold create_container in H.
  unfold bind at 1 in H.
  destruct (is_container_exists client parent w) as [[[|]|e] w1];
    try discriminate H.
  2:{ injection H as <- _. discriminate Hs. }
  unfold bind at 1 in H.
  destruct (api client (api_get_container_by_name parent) w1)
    as [[info|e] w2]; try discriminate H.
  rewrite bind_lift in H.
  destruct (py_getitem info FIELD_KEY) as [parent_id|];
    try discriminate H.
  unfold bind at 1 in H.
  destruct (is_container_exists client container w2) as [[[|]|e] w3];
    try discriminate H; cbn [negb] in H.
  { injection H as <- _. discriminate Hs. }
  unfold try_except_CvpApiError, api in H.
  destruct (client (api_add_container container parent_id parent)
              (remote w3)) as [[resp|e] s].
  - rewrite bind_lift in H.
    destruct (container_response resp) as [[t|]|]; try discriminate H;
      injection H as <- <-; [|discriminate Hs].
    split; [reflexivity|]. now exists parent_id, (calls w3).
  - destruct e; try discriminate H. injection H as <- _. discriminate Hs.
Qed.

Lemma create_container_success_sent_witness :
  count
    (mkCvApiResult "DC3" true false (PyList []) 1) = 1%Z
  /\ exists parent_id before,
       [api_get_container_by_name "Tenant";
        api_get_container_by_name "Tenant";
        api_get_container_by_name "DC3";
        api_add_container "DC3" (PyStr "root") "Tenant"]
       = before ++ [api_add_container "DC3" parent_id "Tenant"].
Proof.
  apply (create_container_success_sent registry_client "DC3" "Tenant"
           demo_world
           (mkWorld
              (snd (registry_client
                      (api_add_container "DC3" (PyStr "root") "Tenant")
                      demo_registry))
              [api_get_container_by_name "Tenant";
               api_get_container_by_name "Tenant";
               api_get_container_by_name "DC3";
               api_add_container "DC3" (PyStr "root") "Tenant"])
           (mkCvApiResult "DC3" true false (PyList []) 1));
    reflexivity.
Defined.

(** ** Deletion in check mode *)

Lemma reads_get_container_id {R : Type}
    (client : api_call -> R -> result pyval * R) (container_name : string) :
  reads_only (get_container_id client container_name) (fun _ => True).
Proof.
  unfold get_container_id.
  eapply reads_bind; [now apply reads_api|]. intros info _.
  eapply reads_bind; [now apply reads_lift with (post := fun _ => True)|].
  intros [|] _; [now apply reads_lift | now apply reads_ret].
Qed.

Lemma reads_is_empty {R : Type}
    (client : api_call -> R -> result pyval * R) (container_name : string) :
  reads_only (is_empty client container_name) (fun _ => True).
Proof.
  unfold is_empty.
  eapply reads_bind; [apply reads_get_container_info|]. intros info _.
  eapply reads_bind; [now apply reads_lift with (post := fun _ => True)|].
  intros has_containers _.
  eapply reads_bind; [now apply reads_lift with (post := fun _ => True)|].
  intros [|] _; [|now apply reads_ret].
  eapply reads_bind; [now apply reads_lift with (post := fun _ => True)|].
  intros n _. destruct (py_eq_int n 0); [|now apply reads_ret].
  eapply reads_bind; [now apply reads_lift with (post := fun _ => True)|].
  intros n' _. destruct (py_eq_int n' 0); now apply reads_ret.
Qed.

(** In check mode [delete_container] sends the registry nothing but
    lookups, whatever the registry answers; the result it returns either
    reports success, with no task, or is the result it started from. *)
Theorem delete_container_check_mode_only_lookups {R : Type}
    (client : api_call -> R -> result pyval * R)
    (container parent : string) :
  reads_only (delete_container client true container parent)
    (fun res => res = set_success true (new_CvApiResult container)
                \/ res = new_CvApiResult container).
Proof.
  unfold delete_container.
  eapply reads_bind; [apply reads_is_container_exists|].
  intros container_exists _.
  eapply reads_bind with (mid := fun _ => True).
  - destruct container_exists; [apply reads_is_empty | now apply reads_ret].
  - intros [|] _; [|apply reads_ret; now right].
    eapply reads_bind; [apply reads_get_container_id|]. intros parent_id _.
    eapply reads_bind; [apply reads_get_container_id|].
    intros container_id _. apply reads_ret. now left.
Qed.

(** ** Attaching to a container that is not there *)

(** When the registry does not know the container, [configlets_attach]
    still looks every configlet up and then returns the result named
    [Undefined], unsuccessful, without sending an attachment, in check
    mode as out of it. *)
Theorem configlets_attach_missing_container {R : Type}
    (client : api_call -> R -> result pyval * R) (check_mode : bool)
    (container : string) (names : list string) (strict : bool)
    (w : world R) (s : R) (resolve : string -> pyval) :
  client (api_get_container_by_name container) (remote w) = (Ok PyNone, s) ->
  (forall n, In n names ->
     client (api_get_configlet_by_name n) s = (Ok (resolve n), s)) ->
  (forall n, In n names ->
     resolve n = PyNone \/ exists d, resolve n = PyDict d) ->
  configlets_attach client check_mode container names strict w
  = (Ok (new_CvApiResult "Undefined"),
     mkWorld s
       (calls w ++ api_get_container_by_name container
        :: map api_get_configlet_by_name names)).
Proof.
  intros Hmissing Hres Hshape. unfold configlets_attach.
  rewrite (bind_run _ _ _ _ _
             (get_container_info_missing client container w s Hmissing)).
  erewrite bind_run
    by (apply (collect_configlets_run client s resolve names Hres Hshape);
        reflexivity).
  unfold _configlet_add. cbn [is_none negb calls]. unfold ret.
  now rewrite <- app_assoc.
Qed.

Lemma configlets_attach_missing_container_witness :
  configlets_attach registry_client false "DC9" ["ALIASES"; "missing"] false
    demo_world
  = (Ok (new_CvApiResult "Undefined"),
     mkWorld demo_registry
       [api_get_container_by_name "DC9";
        api_get_configlet_by_name "ALIASES";
        api_get_configlet_by_name "missing"]).
Proof.
  apply (configlets_attach_missing_container registry_client false "DC9"
           ["ALIASES"; "missing"] false demo_world demo_registry
           (fun n => match dict_get n (configlets demo_registry) with
                     | Some v => v
                     | None => PyNone
                     end)).
  - reflexivity.
  - intros n [<-|[<-|[]]]; reflexivity.
  - intros n [<-|[<-|[]]];
      [right; eexists; reflexivity | now left].
Defined.

(** ** Attaching and detaching the configlets that resolve *)

Lemma action_name_of_run (cinfo : dict) (cname joined : string)
    (cnames : list pyval) :
  dict_get FIELD_NAME cinfo = Some (PyStr cname) ->
  py_join ":" cnames = Ok joined ->
  action_name_of (PyDict cinfo) cnames = Ok (cname ++ ":" ++ joined)%string.
Proof.
  intros Hname Hjoin. unfold action_name_of. cbn [py_getitem].
  rewrite Hname. cbn [rbind py_add_str]. rewrite Hjoin. cbn [rbind].
  f_equal. clear. induction cname as [|a cname IH]; [reflexivity|].
  simpl. now rewrite IH.
Qed.

Lemma configlet_response_success (resp data tasks : pyval)
    (change_response : CvApiResult) :
  py_getitem resp "data" = Ok data ->
  py_getitem data "status" = Ok (PyStr "success") ->
  py_getitem data "taskIds" = Ok tasks ->
  configlet_response resp change_response
  = Ok (set_success true (set_taskIds tasks change_response)).
Proof.
  intros Hdata Hstatus Htasks. unfold configlet_response.
  assert (Hin : py_contains "data" resp = Ok true).
  { destruct resp; try discriminate Hdata. simpl in *.
    unfold dict_mem. destruct (dict_get "data" d); [reflexivity|].
    discriminate Hdata. }
  rewrite Hin. cbn [rbind]. rewrite Hdata. cbn [rbind].
  now rewrite Hstatus, Htasks.
Qed.

Section Resolved.

Context {R : Type}.
Variable client : api_call -> R -> result pyval * R.
Variable container : string.
Variable names : list string.
Variable strict : bool.
Variable w w1 : world R.
Variable cinfo : dict.
Variable cname joined : string.
Variable cnames : list pyval.
Variable resolve : string -> pyval.

Hypothesis info :
  get_container_info client container w = (Ok (PyDict cinfo), w1).
Hypothesis info_name : dict_get FIELD_NAME cinfo = Some (PyStr cname).
Hypothesis resolved :
  forall n, In n names ->
    client (api_get_configlet_by_name n) (remote w1)
    = (Ok (resolve n), remote w1).
Hypothesis resolved_shape :
  forall n, In n names ->
    resolve n = PyNone \/ exists d, resolve n = PyDict d.
Hypothesis batch_names :
  configlet_names_of (resolved_batch resolve names) = Ok cnames.
Hypothesis batch_joined : py_join ":" cnames = Ok joined.

Lemma configlets_detach_run (check_mode : bool) :
  configlets_detach client check_mode container names strict w
  = (if check_mode
     then ret (set_taskIds (PyList [PyStr "check_mode"])
                 (set_success true
                    (new_CvApiResult (cname ++ ":" ++ joined))))
     else
       try_except_CvpApiError
         (api client
            (api_remove_configlets_from_container "ansible_cv_container"
               (resolved_batch resolve names) (PyDict cinfo) true))
         (ret (new_CvApiResult (cname ++ ":" ++ joined)))
         (fun resp =>
            lift (configlet_response resp
                    (new_CvApiResult (cname ++ ":" ++ joined)))))
      (mkWorld (remote w1)
         (calls w1 ++ map api_get_configlet_by_name names)).
Proof.
  unfold configlets_detach.
  rewrite (bind_run _ _ _ _ _ info).
  rewrite (bind_run _ _ _ _ _
             (collect_configlets_run client (remote w1) resolve names
                resolved resolved_shape [] w1 eq_refl)).
  unfold _configlet_del. cbn [app].
  rewrite bind_lift, batch_names, bind_lift.
  now rewrite (action_name_of_run cinfo cname joined cnames info_name
                 batch_joined).
Qed.

Lemma configlets_attach_run (check_mode : bool) :
  configlets_attach client check_mode container names strict w
  = (if check_mode
     then ret (set_taskIds (PyList [PyStr "check_mode"])
                 (set_success true
                    (set_name (cname ++ ":" ++ joined)
                       (new_CvApiResult "Undefined"))))
     else
       try_except_CvpApiError
         (api client
            (api_apply_configlets_to_container "ansible_cv_container"
               (resolved_batch resolve names) (PyDict cinfo) true))
         (ret (set_name (cname ++ ":" ++ joined)
                 (new_CvApiResult "Undefined")))
         (fun resp =>
            lift (configlet_response resp
                    (set_name (cname ++ ":" ++ joined)
                       (new_CvApiResult "Undefined")))))
      (mkWorld (remote w1)
         (calls w1 ++ map api_get_configlet_by_name names)).
Proof.
  unfold configlets_attach.
  rewrite (bind_run _ _ _ _ _ info).
  rewrite (bind_run _ _ _ _ _
             (collect_configlets_run client (remote w1) resolve names
                resolved resolved_shape [] w1 eq_refl)).
  unfold _configlet_add. cbn [is_none negb app].
  rewrite bind_lift, batch_names, bind_lift.
  now rewrite (action_name_of_run cinfo cname joined cnames info_name
                 batch_joined).
Qed.

End Resolved.

(** [configlets_detach] on a container of the registry: the configlets
    that resolve, and those only, make the batch, and the action is named
    after the container and the names of the batch joined by colons.  In
    check mode success is reported without a removal.  Out of check mode
    the batch is sent once: the success that the registry answers is
    reported with its tasks, and a registry error is caught and leaves
    the result unsuccessful. *)
Theorem configlets_detach_resolved {R : Type}
    (client : api_call -> R -> result pyval * R)
    (container : string) (names : list string) (strict : bool)
    (w w1 : world R) (cinfo : dict) (cname joined : string)
    (cnames : list pyval) (resolve : string -> pyval) :
  get_container_info client container w = (Ok (PyDict cinfo), w1) ->
  dict_get FIELD_NAME cinfo = Some (PyStr cname) ->
  (forall n, In n names ->
     client (api_get_configlet_by_name n) (remote w1)
     = (Ok (resolve n), remote w1)) ->
  (forall n, In n names ->
     resolve n = PyNone \/ exists d, resolve n = PyDict d) ->
  configlet_names_of (resolved_batch resolve names) = Ok cnames ->
  py_join ":" cnames = Ok joined ->
  let action := (cname ++ ":" ++ joined)%string in
  let w2 :=
    mkWorld (remote w1) (calls w1 ++ map api_get_configlet_by_name names) in
  let sent :=
    api_remove_configlets_from_container "ansible_cv_container"
      (resolved_batch resolve names) (PyDict cinfo) true in
  configlets_detach client true container names strict w
  = (Ok (mkCvApiResult action true false (PyList [PyStr "check_mode"]) 0),
     w2)
  /\ (forall resp data tasks s,
        client sent (remote w1) = (Ok resp, s) ->
        py_getitem resp "data" = Ok data ->
        py_getitem data "status" = Ok (PyStr "success") ->
        py_getitem data "taskIds" = Ok tasks ->
        configlets_detach client false container names strict w
        = (Ok (mkCvApiResult action true false tasks 0),
           mkWorld s (calls w2 ++ [sent])))
  /\ (forall s,
        client sent (remote w1) = (Raise CvpApiError, s) ->
        configlets_detach client false container names strict w
        = (Ok (mkCvApiResult action false false (PyList []) 0),
           mkWorld s (calls w2 ++ [sent]))).
Proof.
  intros Hinfo Hname Hres Hshape Hnames Hjoin action w2 sent.
  assert (Hrun := configlets_detach_run client container names strict w w1
                    cinfo cname joined cnames resolve Hinfo Hname Hres
                    Hshape Hnames Hjoin).
  split; [|split].
  - now rewrite (Hrun true).
  - intros resp data tasks s Hcall Hdata Hstatus Htasks. rewrite (Hrun false).
    erewrite try_run by (apply api_run; exact Hcall).
    unfold lift.
    now rewrite (configlet_response_success resp data tasks _ Hdata Hstatus
                   Htasks).
  - intros s Hcall. rewrite (Hrun false). unfold try_except_CvpApiError.
    erewrite api_run by exact Hcall. reflexivity.
Qed.

Lemma configlets_detach_resolved_witness :
  configlets_detach registry_client true "DC1" ["ALIASES"; "missing"] false
    demo_world
  = (Ok (mkCvApiResult "DC1:ALIASES" true false
           (PyList [PyStr "check_mode"]) 0),
     mkWorld demo_registry
       (calls dc1_found
        ++ [api_get_configlet_by_name "ALIASES";
            api_get_configlet_by_name "missing"]))
  /\ configlets_detach registry_client false "DC1" ["ALIASES"; "missing"]
       false demo_world
     = (Ok (mkCvApiResult "DC1:ALIASES" true false (PyList [PyStr "12"]) 0),
        mkWorld demo_registry
          (calls dc1_found
           ++ [api_get_configlet_by_name "ALIASES";
               api_get_configlet_by_name "missing";
               api_remove_configlets_from_container "ansible_cv_container"
                 [PyDict [(FIELD_KEY, PyStr "configlet_1");
                          (FIELD_NAME, PyStr "ALIASES")]]
                 (PyDict dc1_info) true]))
  /\ configlets_detach readonly_client false "DC1" ["ALIASES"; "missing"]
       false demo_world
     = (Ok (mkCvApiResult "DC1:ALIASES" false false (PyList []) 0),
        mkWorld demo_registry
          (calls dc1_found
           ++ [api_get_configlet_by_name "ALIASES";
               api_get_configlet_by_name "missing";
               api_remove_configlets_from_container "ansible_cv_container"
                 [PyDict [(FIELD_KEY, PyStr "configlet_1");
                          (FIELD_NAME, PyStr "ALIASES")]]
                 (PyDict dc1_info) true])).
Proof.
  assert (Hres : forall client : api_call -> registry -> _,
             (forall n, client (api_get_configlet_by_name n) demo_registry
                        = registry_client (api_get_configlet_by_name n)
                            demo_registry) ->
             forall n, In n ["ALIASES"; "missing"] ->
               client (api_get_configlet_by_name n) (remote dc1_found)
               = (Ok (demo_resolve n), remote dc1_found)).
  { intros client Hc n Hn. rewrite Hc. reflexivity. }
  assert (Hshape : forall n, In n ["ALIASES"; "missing"] ->
             demo_resolve n = PyNone \/ exists d, demo_resolve n = PyDict d).
  { intros n [<-|[<-|[]]]; [right; eexists; reflexivity | now left]. }
  destruct (configlets_detach_resolved registry_client "DC1"
              ["ALIASES"; "missing"] false demo_world dc1_found dc1_info
              "DC1" "ALIASES" [PyStr "ALIASES"] demo_resolve
              eq_refl eq_refl (Hres registry_client (fun n => eq_refl))
              Hshape eq_refl eq_refl) as [H1 [H2 _]].
  destruct (configlets_detach_resolved readonly_client "DC1"
              ["ALIASES"; "missing"] false demo_world dc1_found dc1_info
              "DC1" "ALIASES" [PyStr "ALIASES"] demo_resolve
              eq_refl eq_refl (Hres readonly_client (fun n => eq_refl))
              Hshape eq_refl eq_refl) as [_ [_ H3]].
  split; [exact H1 | split].
  - exact (H2 (success_response (PyList [PyStr "12"]))
              (PyDict [("status", PyStr "success");
                       ("taskIds", PyList [PyStr "12"])])
              (PyList [PyStr "12"]) demo_registry
              eq_refl eq_refl eq_refl eq_refl).
  - exact (H3 demo_registry eq_refl).
Defined.

(** [configlets_attach] on a container of the registry, with a batch
    that need not be empty: the action is named after the container and
    the names of the batch joined by colons.  In check mode success is
    reported without an attachment.  Out of check mode the batch is sent
    once: the success that the registry answers is reported with its
    tasks, and a registry error is caught and leaves the result
    unsuccessful. *)
Theorem configlets_attach_resolved {R : Type}
    (client : api_call -> R -> result pyval * R)
    (container : string) (names : list string) (strict : bool)
    (w w1 : world R) (cinfo : dict) (cname joined : string)
    (cnames : list pyval) (resolve : string -> pyval) :
  get_container_info client container w = (Ok (PyDict cinfo), w1) ->
  dict_get FIELD_NAME cinfo = Some (PyStr cname) ->
  (forall n, In n names ->
     client (api_get_configlet_by_name n) (remote w1)
     = (Ok (resolve n), remote w1)) ->
  (forall n, In n names ->
     resolve n = PyNone \/ exists d, resolve n = PyDict d) ->
  configlet_names_of (resolved_batch resolve names) = Ok cnames ->
  py_join ":" cnames = Ok joined ->
  let action := (cname ++ ":" ++ joined)%string in
  let w2 :=
    mkWorld (remote w1) (calls w1 ++ map api_get_configlet_by_name names) in
  let sent :=
    api_apply_configlets_to_container "ansible_cv_container"
      (resolved_batch resolve names) (PyDict cinfo) true in
  configlets_attach client true container names strict w
  = (Ok (mkCvApiResult action true false (PyList [PyStr "check_mode"]) 0),
     w2)
  /\ (forall resp data tasks s,
        client sent (remote w1) = (Ok resp, s) ->
        py_getitem resp "data" = Ok data ->
        py_getitem data "status" = Ok (PyStr "success") ->
        py_getitem data "taskIds" = Ok tasks ->
        configlets_attach client false container names strict w
        = (Ok (mkCvApiResult action true false tasks 0),
           mkWorld s (calls w2 ++ [sent])))
  /\ (forall s,
        client sent (remote w1) = (Raise CvpApiError, s) ->
        configlets_attach client false container names strict w
        = (Ok (mkCvApiResult action false false (PyList []) 0),
           mkWorld s (calls w2 ++ [sent]))).
Proof.
  intros Hinfo Hname Hres Hshape Hnames Hjoin action w2 sent.
  assert (Hrun := configlets_attach_run client container names strict w w1
                    cinfo cname joined cnames resolve Hinfo Hname Hres
                    Hshape Hnames Hjoin).
  split; [|split].
  - now rewrite (Hrun true).
  - intros resp data tasks s Hcall Hdata Hstatus Htasks. rewrite (Hrun false).
    erewrite try_run by (apply api_run; exact Hcall).
    unfold lift.
    now rewrite (configlet_response_success resp data tasks _ Hdata Hstatus
                   Htasks).
  - intros s Hcall. rewrite (Hrun false). unfold try_except_CvpApiError.
    erewrite api_run by exact Hcall. reflexivity.
Qed.

Lemma configlets_attach_resolved_witness :
  configlets_attach registry_client true "DC1" ["ALIASES"; "missing"] false
    demo_world
  = (Ok (mkCvApiResult "DC1:ALIASES" true false
           (PyList [PyStr "check_mode"]) 0),
     mkWorld demo_registry
       (calls dc1_found
        ++ [api_get_configlet_by_name "ALIASES";
            api_get_configlet_by_name "missing"]))
  /\ configlets_attach registry_client false "DC1" ["ALIASES"; "missing"]
       false demo_world
     = (Ok (mkCvApiResult "DC1:ALIASES" true false (PyList [PyStr "12"]) 0),
        mkWorld demo_registry
          (calls dc1_found
           ++ [api_get_configlet_by_name "ALIASES";
               api_get_configlet_by_name "missing";
               api_apply_configlets_to_container "ansible_cv_container"
                 [PyDict [(FIELD_KEY, PyStr "configlet_1");
                          (FIELD_NAME, PyStr "ALIASES")]]
                 (PyDict dc1_info) true]))
  /\ configlets_attach readonly_client false "DC1" ["ALIASES"; "missing"]
       false demo_world
     = (Ok (mkCvApiResult "DC1:ALIASES" false false (PyList []) 0),
        mkWorld demo_registry
          (calls dc1_found
           ++ [api_get_configlet_by_name "ALIASES";
               api_get_configlet_by_name "missing";
               api_apply_configlets_to_container "ansible_cv_container"
                 [PyDict [(FIELD_KEY, PyStr "configlet_1");
                          (FIELD_NAME, PyStr "ALIASES")]]
                 (PyDict dc1_info) true])).
Proof.
  assert (Hres : forall client : api_call -> registry -> _,
             (forall n, client (api_get_configlet_by_name n) demo_registry
                        = registry_client (api_get_configlet_by_name n)
                            demo_registry) ->
             forall n, In n ["ALIASES"; "missing"] ->
               client (api_get_configlet_by_name n) (remote dc1_found)
               = (Ok (demo_resolve n), remote dc1_found)).
  { intros client Hc n Hn. rewrite Hc. reflexivity. }
  assert (Hshape : forall n, In n ["ALIASES"; "missing"] ->
             demo_resolve n = PyNone \/ exists d, demo_resolve n = PyDict d).
  { intros n [<-|[<-|[]]]; [right; eexists; reflexivity | now left]. }
  destruct (configlets_attach_resolved registry_client "DC1"
              ["ALIASES"; "missing"] false demo_world dc1_found dc1_info
              "DC1" "ALIASES" [PyStr "ALIASES"] demo_resolve
              eq_refl eq_refl (Hres registry_client (fun n => eq_refl))
              Hshape eq_refl eq_refl) as [H1 [H2 _]].
  destruct (configlets_attach_resolved readonly_client "DC1"
              ["ALIASES"; "missing"] false demo_world dc1_found dc1_info
              "DC1" "ALIASES" [PyStr "ALIASES"] demo_resolve
              eq_refl eq_refl (Hres readonly_client (fun n => eq_refl))
              Hshape eq_refl eq_refl) as [_ [_ H3]].
  split; [exact H1 | split].
  - exact (H2 (success_response (PyList [PyStr "12"]))
              (PyDict [("status", PyStr "success");
                       ("taskIds", PyList [PyStr "12"])])
              (PyList [PyStr "12"]) demo_registry
              eq_refl eq_refl eq_refl eq_refl).
  - exact (H3 demo_registry eq_refl).
Defined.

(** ** The configlet listings *)

Lemma lower_ascii_not_L (c : ascii) : lower_ascii c <> "L"%char.
Proof.
  destruct c as [[] [] [] [] [] [] [] []]; vm_compute; discriminate.
Qed.

Lemma py_lower_no_L (s : string) :
  ~ In "L"%char (list_ascii_of_string (py_lower s)).
Proof.
  induction s as [|c s IH]; simpl; [tauto|].
  intros [H|H]; [now apply (lower_ascii_not_L c) | now apply IH].
Qed.

Lemma dict_get_set (k x : string) (v : pyval) (d : dict) :
  dict_get x (dict_set k v d)
  = if String.eqb k x then Some v else dict_get x d.
Proof.
  induction d as [|[k' v'] d IH]; simpl.
  - reflexivity.
  - destruct (String.eqb k' k) eqn:Ek; simpl.
    + apply String.eqb_eq in Ek. subst k'.
      now destruct (String.eqb k x).
    + rewrite IH. destruct (String.eqb k' x) eqn:Ex; [|reflexivity].
      apply String.eqb_eq in Ex. subst k'.
      rewrite String.eqb_sym in Ek. now rewrite Ek.
Qed.

Lemma dict_get_last (x k : string) (v : pyval) (d : dict) :
  dict_get x (d ++ [(k, v)])
  = match dict_get x d with
    | Some y => Some y
    | None => if String.eqb k x then Some v else None
    end.
Proof.
  induction d as [|[k' v'] d IH]; simpl; [reflexivity|].
  now destruct (String.eqb k' x).
Qed.

(** Where several keys differ by their case only, the last one gives the
    value. *)
Lemma dict_get_lower_keys (x : string) (d : dict) :
  forall acc,
    dict_get x
      (fold_left (fun acc kv => dict_set (py_lower (fst kv)) (snd kv) acc)
         d acc)
    = match dict_get x (rev (lowered d)) with
      | Some v => Some v
      | None => dict_get x acc
      end.
Proof.
  induction d as [|[k v] d IH]; intros acc; simpl; [reflexivity|].
  rewrite IH, dict_get_last, dict_get_set. simpl.
  destruct (dict_get x (rev (lowered d))); [reflexivity|].
  now destruct (String.eqb (py_lower k) x).
Qed.

Lemma standard_outputs_of_dicts (items : list pyval) :
  (forall x, In x items -> exists d, x = PyDict d) ->
  forall acc,
    standard_outputs items acc = Ok (acc ++ map standard_fields items).
Proof.
  induction items as [|x items IH]; intros H acc; simpl.
  - now rewrite app_nil_r.
  - destruct (H x (or_introl eq_refl)) as [d ->]. simpl.
    rewrite IH by (intros; apply H; now right).
    now rewrite <- app_assoc.
Qed.

(** [_get_attached_configlets] never returns a list.  It puts the keys of
    the answer in lower case and then reads the entry [configletList],
    whose name is not in lower case: on every dict that the client
    answers this raises [KeyError], and any other answer raises as
    well. *)
Theorem get_attached_configlets_never_returns (answer : result pyval) :
  (exists e, _get_attached_configlets answer = Raise e)
  /\ (forall d,
        answer = Ok (PyDict d) ->
        _get_attached_configlets answer = Raise KeyError).
Proof.
  assert (Hdict : forall d,
             _get_attached_configlets (Ok (PyDict d)) = Raise KeyError).
  { intros d. unfold _get_attached_configlets. cbn [rbind lower_keys].
    cbn [py_getitem]. rewrite dict_get_lower_keys. cbn [dict_get].
    destruct (dict_get "configletList" (rev (lowered d))) as [v|] eqn:E;
      [|reflexivity].
    exfalso. apply dict_get_some_key in E. unfold dict_keys in E.
    rewrite map_rev in E. apply in_rev in E. unfold lowered in E.
    rewrite map_map in E. apply in_map_iff in E.
    destruct E as [[k v'] [Hk _]]. simpl in Hk.
    apply (py_lower_no_L k). rewrite Hk. simpl. tauto. }
  split.
  - destruct answer as [[]|e]; try (eexists; reflexivity).
    exists KeyError. apply Hdict.
  - intros d ->. apply Hdict.
Qed.

(** [_get_all_configlets] reads the entry of the answer whose key is
    [data] in whatever case, the last such key when there are several:
    without one it raises [KeyError]; with a list of dicts under it, it
    returns the standard output of each of them, in order. *)
Theorem get_all_configlets_data (d : dict) :
  (dict_get "data" (rev (lowered d)) = None ->
   _get_all_configlets (Ok (PyDict d)) = Raise KeyError)
  /\ (forall items,
        dict_get "data" (rev (lowered d)) = Some (PyList items) ->
        (forall x, In x items -> exists e, x = PyDict e) ->
        _get_all_configlets (Ok (PyDict d))
        = Ok (map standard_fields items)).
Proof.
  unfold _get_all_configlets. cbn [rbind lower_keys py_getitem].
  rewrite dict_get_lower_keys. cbn [dict_get]. split.
  - now intros ->.
  - intros items -> Hitems. cbn [rbind py_iter].
    now rewrite standard_outputs_of_dicts.
Qed.

Lemma get_all_configlets_data_witness :
  _get_all_configlets
    (Ok (PyDict [("total", PyInt 1);
                 ("Data", PyList [configlet_record "configlet_1" "ALIASES"])]))
  = Ok [PyDict [(FIELD_KEY, PyStr "configlet_1");
                (FIELD_NAME, PyStr "ALIASES")]]
  /\ _get_all_configlets (Ok (PyDict [("total", PyInt 0)]))
     = Raise KeyError.
Proof.
  split.
  - apply (proj2 (get_all_configlets_data
                    [("total", PyInt 1);
                     ("Data",
                      PyList [configlet_record "configlet_1" "ALIASES"])])
             [configlet_record "configlet_1" "ALIASES"]).
    + reflexivity.
    + intros x [<-|[]]. eexists. reflexivity.
  - apply (proj1 (get_all_configlets_data [("total", PyInt 0)])).
    reflexivity.
Defined.

Lemma get_attached_configlets_never_returns_witness :
  _get_attached_configlets
    (Ok (PyDict [("configletList",
                  PyList [configlet_record "configlet_1" "ALIASES"])]))
  = Raise KeyError.
Proof.
  exact (proj2 (get_attached_configlets_never_returns _) _ eq_refl).
Defined.

(** ** [get_container_info] *)

(** [get_container_info] returns [None] after one lookup when the
    registry answers [None] or a record without a key.  For a record with
    a key it looks the name up a second time, filters the topology on the
    key, and returns the entries of the topology facts under the standard
    keys. *)
Theorem get_container_info_cases {R : Type}
    (client : api_call -> R -> result pyval * R) (container_name : string)
    (w : world R) (answer : pyval) :
  client (api_get_container_by_name container_name) (remote w)
  = (Ok answer, remote w) ->
  (answer = PyNone
   \/ (exists d, answer = PyDict d /\ dict_get FIELD_KEY d = None) ->
   get_container_info client container_name w
   = (Ok PyNone,
      mkWorld (remote w)
        (calls w ++ [api_get_container_by_name container_name])))
  /\ (forall d container_id topology facts,
        answer = PyDict d ->
        dict_get FIELD_KEY d = Some container_id ->
        client (api_filter_topology container_id) (remote w)
        = (Ok topology, remote w) ->
        py_getitem topology FIELD_TOPOLOGY = Ok (PyDict facts) ->
        get_container_info client container_name w
        = (Ok (standard_fields (PyDict facts)),
           mkWorld (remote w)
             (calls w ++ [api_get_container_by_name container_name;
                          api_get_container_by_name container_name;
                          api_filter_topology container_id]))).
Proof.
  intros H. split.
  - intros Hnone. unfold get_container_info.
    rewrite (bind_run _ _ _ _ _ (api_run client _ _ _ _ H)).
    rewrite bind_lift.
    destruct Hnone as [->|[d [-> Hk]]]; [reflexivity|].
    cbn [is_none negb py_contains]. unfold dict_mem. now rewrite Hk.
  - intros d container_id topology facts -> Hk Hf Hfacts.
    now apply (get_container_info_found client container_name (remote w) d
                 facts container_id topology).
Qed.

Lemma get_container_info_cases_witness :
  get_container_info registry_client "DC9" demo_world
  = (Ok PyNone, mkWorld demo_registry [api_get_container_by_name "DC9"])
  /\ get_container_info registry_client "DC1" demo_world
     = (Ok (PyDict dc1_info), dc1_found).
Proof.
  pose (dc1 := container_record "container_1" "DC1" (PyStr "root") 0 0).
  split.
  - apply (proj1 (get_container_info_cases registry_client "DC9" demo_world
                    PyNone eq_refl)).
    now left.
  - exact (proj2 (get_container_info_cases registry_client "DC1" demo_world
                    dc1 eq_refl)
             (record_fields dc1) (PyStr "container_1")
             (PyDict [(FIELD_TOPOLOGY, dc1)]) (record_fields dc1)
             eq_refl eq_refl eq_refl eq_refl).
Defined.
